(** * go-apibox/filter: the int64/uint64 range filters and the error model

    A shallow embedding of [range_int64.go], [range_uint64.go] and the
    error module, with the properties of the range subsystem proved over it.

    Conventions.
    - A Go [int64] or [uint64] is a [Z]; the arithmetic of the source is
      written with its wrap-around ([wrap_int64], [wrap_uint64]).
    - A big.Int is a [Z]; [big_Uint64] is the method Uint64 of big.Int.
    - A validator is a Go closure: the variables it captures are a piece of
      state that lives as long as the filter, so a call takes the captured
      environment and returns the new one.
    - [Run] returns the filter as the call leaves it, together with Go's
      pair of an interface value and an error pointer. *)

From stdpp Require Import base numbers strings list gmap.

Open Scope Z_scope.

(** ** Machine integers *)

Definition MinInt64 : Z := - 2 ^ 63.
Definition MaxInt64 : Z := 2 ^ 63 - 1.
Definition MaxUint64 : Z := 2 ^ 64 - 1.

Definition is_int64 (z : Z) : Prop := MinInt64 ≤ z ≤ MaxInt64.
Definition is_uint64 (z : Z) : Prop := 0 ≤ z ≤ MaxUint64.

(** Two's complement result of an int64 operation whose exact value is [z]. *)
Definition wrap_int64 (z : Z) : Z := (z + 2 ^ 63) `mod` 2 ^ 64 - 2 ^ 63.

(** Result of a uint64 operation whose exact value is [z]. *)
Definition wrap_uint64 (z : Z) : Z := z `mod` 2 ^ 64.

(** ** math/big, as far as the filters use it *)

Definition big_NewInt (x : Z) : Z := x.
Definition big_Sub (x y : Z) : Z := x - y.

(** Method Uint64 of big.Int. The library documents the result as undefined
    when the number does not fit a uint64; what it returns is the low 64 bits
    of the magnitude, the sign being dropped, and that is what is modelled. *)
Definition big_Uint64 (x : Z) : Z := Z.abs x `mod` 2 ^ 64.

(** ** strings.Join and strings.Trim *)

Fixpoint Join (elems : list string) (sep : string) : string :=
  match elems with
  | [] => ""
  | [x] => x
  | x :: rest => x +:+ sep +:+ Join rest sep
  end.

Fixpoint in_cutset (cutset : string) (c : Ascii.ascii) : bool :=
  match cutset with
  | EmptyString => false
  | String d rest => if Ascii.eqb d c then true else in_cutset rest c
  end.

Fixpoint TrimLeft (s cutset : string) : string :=
  match s with
  | EmptyString => EmptyString
  | String c rest => if in_cutset cutset c then TrimLeft rest cutset else s
  end.

Fixpoint TrimRight (s cutset : string) : string :=
  match s with
  | EmptyString => EmptyString
  | String c rest =>
      match TrimRight rest cutset with
      | EmptyString => if in_cutset cutset c then EmptyString else String c EmptyString
      | t => String c t
      end
  end.

Definition Trim (s cutset : string) : string :=
  TrimLeft (TrimRight s cutset) cutset.

(** The cut set of [Run]: space, tab, carriage return, line feed. *)
Definition run_cutset : string :=
  String (Ascii.ascii_of_nat 32) (String (Ascii.ascii_of_nat 9) (String (Ascii.ascii_of_nat 13) (String (Ascii.ascii_of_nat 10) EmptyString))).

(** ** The error module *)

(** [type ErrorType uint] *)
Definition ErrorType : Type := N.

Definition ErrorObjectNotExist : ErrorType := 0%N.
Definition ErrorObjectDuplicated : ErrorType := 1%N.
Definition ErrorNoObjectUpdated : ErrorType := 2%N.
Definition ErrorNoObjectDeleted : ErrorType := 3%N.
Definition ErrorMissingParam : ErrorType := 4%N.
Definition ErrorInvalidParam : ErrorType := 5%N.
Definition ErrorQuotaExceed : ErrorType := 6%N.
Definition ErrorPermissionDenied : ErrorType := 7%N.
Definition ErrorOperationFailed : ErrorType := 8%N.
Definition ErrorInternalError : ErrorType := 9%N.

Definition appErrorCodes : gmap N string :=
  list_to_map
    [ (ErrorObjectNotExist, "ObjectNotExist");
      (ErrorObjectDuplicated, "ObjectDuplicated");
      (ErrorNoObjectUpdated, "NoObjectUpdated");
      (ErrorNoObjectDeleted, "NoObjectDeleted");
      (ErrorMissingParam, "MissingParam");
      (ErrorInvalidParam, "InvalidParam");
      (ErrorQuotaExceed, "QuotaExceed");
      (ErrorPermissionDenied, "PermissionDenied");
      (ErrorOperationFailed, "OperationFailed");
      (ErrorInternalError, "InternalError") ].

(** Indexing a Go map: the zero value of the element type for a missing key. *)
Definition appErrorCode (t : ErrorType) : string :=
  default "" (appErrorCodes !! t).

Record Error : Type := mkError {
  Type_ : ErrorType;
  Fields : list string
}.

Definition NewError (errorType : ErrorType) (fields : list string) : Error :=
  mkError errorType fields.

(** Method Error of Error: the receiver is a pointer, the
    assignment to [e.Fields] is kept by the caller; the method returns the
    error as it leaves it and the string. *)
Definition Error_Error (e : Error) : Error * string :=
  let e := mkError (Type_ e) (appErrorCode (Type_ e) :: Fields e) in
  (e, Join (Fields e) ":").

(** [n] calls of [Error()] on the same value; the strings in call order. *)
Fixpoint Error_calls (n : nat) (e : Error) : Error * list string :=
  match n with
  | O => (e, [])
  | S n =>
      let '(e1, s) := Error_Error e in
      let '(e2, ss) := Error_calls n e1 in
      (e2, s :: ss)
  end.

(** ** Package types: the range values *)

Module types.

(** Modelled from the spec: the struct declarations [types.Int64Range] and
    [types.Uint64Range] live in the package go-apibox/types, outside this
    repository. The filters read the four fields [Left], [Right],
    [LeftClosed] and [RightClosed]; the two structs differ in the type of
    the endpoints only, which is carried here by [is_int64] and
    [is_uint64]. *)
Record Range : Type := mkRange {
  Left : Z;
  Right : Z;
  LeftClosed : bool;
  RightClosed : bool
}.

Definition Int64Range : Type := Range.
Definition Uint64Range : Type := Range.

End types.

Import types.

Definition int64_range (r : types.Int64Range) : Prop :=
  is_int64 (Left r) ∧ is_int64 (Right r).

Definition uint64_range (r : types.Uint64Range) : Prop :=
  is_uint64 (Left r) ∧ is_uint64 (Right r).

(** ** Early return *)

(** The body of a validator either returns an error early ([inl]) or goes on
    with a value ([inr]). *)
#[global] Instance early_ret : MRet (sum Error) := λ A x, inr x.
#[global] Instance early_bind : MBind (sum Error) :=
  λ A B k m, match m with inl e => inl e | inr x => k x end.

(** What a validator body returns: the early error, or nil at its end. *)
Definition returned (m : Error + unit) : option Error :=
  match m with
  | inl e => Some e
  | inr _ => None
  end.

(** ** Validators as closures *)

(** A value of type [func(paramName string, paramValue *R) *Error]: the
    variables the function literal captures ([env]) and its body ([code]).
    A captured variable is shared by all calls, so the body returns the
    environment as the call leaves it; the range is passed by pointer, so the
    body also returns the range as it leaves it. *)
Record Validator (R : Type) : Type := mkValidator {
  captured : Type;
  env : captured;
  code : captured → string → R → captured * R * option Error
}.
Arguments mkValidator {R} captured env code.
Arguments captured {R} _.
Arguments env {R} _.
Arguments code {R} _ _ _ _.

(** The closure after a call that left its captured variables as [env']. *)
Definition with_env {R : Type} (v : Validator R) (env' : captured v) : Validator R :=
  mkValidator (captured v) env' (code v).

(** One call of the closure. *)
Definition call {R : Type} (v : Validator R) (paramName : string) (paramValue : R)
  : Validator R * R * option Error :=
  let '(env', r', err) := code v (env v) paramName paramValue in
  (with_env v env', r', err).

Definition Int64RangeValidator : Type := Validator types.Int64Range.
Definition Uint64RangeValidator : Type := Validator types.Uint64Range.

(** ** Int64RangeFilter *)

Record Int64RangeFilter : Type := mkInt64RangeFilter {
  defaultLeftVal : Z;
  defaultRightVal : Z;
  validators : list Int64RangeValidator;
  allowVals : list string
}.

Definition Int64Range : Int64RangeFilter :=
  mkInt64RangeFilter MinInt64 MaxInt64 [] [].

Definition Allow (vals : list string) (f : Int64RangeFilter) : Int64RangeFilter :=
  mkInt64RangeFilter (defaultLeftVal f) (defaultRightVal f) (validators f)
    (allowVals f ++ vals).

Definition LeftDefault (val : Z) (f : Int64RangeFilter) : Int64RangeFilter :=
  mkInt64RangeFilter val (defaultRightVal f) (validators f) (allowVals f).

Definition RightDefault (val : Z) (f : Int64RangeFilter) : Int64RangeFilter :=
  mkInt64RangeFilter (defaultLeftVal f) val (validators f) (allowVals f).

Definition AddValidator (validator : Int64RangeValidator) (f : Int64RangeFilter)
  : Int64RangeFilter :=
  mkInt64RangeFilter (defaultLeftVal f) (defaultRightVal f)
    (validators f ++ [validator]) (allowVals f).

(** Body of the closure of [LeftMin]; [val] is the captured parameter of
    [LeftMin], and the assignment [val = val - 1] writes to it. *)
Definition LeftMin_code (val : Z) (paramName : string) (paramValue : types.Int64Range)
  : Z * types.Int64Range * option Error :=
  let val :=
    if negb (LeftClosed paramValue) then
      if val >? MinInt64 then wrap_int64 (val - 1) else val
    else val in
  if Left paramValue <? val then
    (val, paramValue, Some (NewError ErrorInvalidParam [paramName; "LeftTooSmall"]))
  else (val, paramValue, None).

Definition LeftMin (val : Z) (f : Int64RangeFilter) : Int64RangeFilter :=
  AddValidator (mkValidator Z val LeftMin_code) f.

(** Body of the closure of [RightMax]. *)
Definition RightMax_code (val : Z) (paramName : string) (paramValue : types.Int64Range)
  : Z * types.Int64Range * option Error :=
  let val :=
    if negb (RightClosed paramValue) then
      if val <? MaxInt64 then wrap_int64 (val + 1) else val
    else val in
  if Right paramValue >? val then
    (val, paramValue, Some (NewError ErrorInvalidParam [paramName; "RightTooLarge"]))
  else (val, paramValue, None).

Definition RightMax (val : Z) (f : Int64RangeFilter) : Int64RangeFilter :=
  AddValidator (mkValidator Z val RightMax_code) f.

(** Body of the closure of [MinDistance]; [val] is a uint64, [dist] a
    big.Int local to the call. *)
Definition MinDistance_code (val : Z) (paramName : string) (paramValue : types.Int64Range)
  : Z * types.Int64Range * option Error :=
  let left := big_NewInt (Left paramValue) in
  let right := big_NewInt (Right paramValue) in
  let dist := big_Sub right left in
  (val, paramValue,
   returned (
     dist ← (if negb (LeftClosed paramValue) then
               if big_Uint64 dist >? 0 then mret (big_Sub dist (big_NewInt 1))
               else inl (NewError ErrorInvalidParam [paramName; "WrongRange"])
             else mret dist);
     dist ← (if negb (RightClosed paramValue) then
               if big_Uint64 dist >? 0 then mret (big_Sub dist (big_NewInt 1))
               else inl (NewError ErrorInvalidParam [paramName; "WrongRange"])
             else mret dist);
     if big_Uint64 dist <? val then
       inl (NewError ErrorInvalidParam [paramName; "TooNear"])
     else mret ())).

Definition MinDistance (val : Z) (f : Int64RangeFilter) : Int64RangeFilter :=
  AddValidator (mkValidator Z val MinDistance_code) f.

(** Body of the closure of [MaxDistance]. *)
Definition MaxDistance_code (val : Z) (paramName : string) (paramValue : types.Int64Range)
  : Z * types.Int64Range * option Error :=
  let left := big_NewInt (Left paramValue) in
  let right := big_NewInt (Right paramValue) in
  let dist := big_Sub right left in
  (val, paramValue,
   returned (
     dist ← (if negb (LeftClosed paramValue) then
               if big_Uint64 dist >? 0 then mret (big_Sub dist (big_NewInt 1))
               else inl (NewError ErrorInvalidParam [paramName; "WrongRange"])
             else mret dist);
     dist ← (if negb (RightClosed paramValue) then
               if big_Uint64 dist >? 0 then mret (big_Sub dist (big_NewInt 1))
               else inl (NewError ErrorInvalidParam [paramName; "WrongRange"])
             else mret dist);
     if big_Uint64 dist >? val then
       inl (NewError ErrorInvalidParam [paramName; "TooFar"])
     else mret ())).

Definition MaxDistance (val : Z) (f : Int64RangeFilter) : Int64RangeFilter :=
  AddValidator (mkValidator Z val MaxDistance_code) f.

(** ** Uint64RangeFilter: the distance validators *)

Module Uint64.

(** Body of the closure of [Uint64RangeFilter.MinDistance]; the
    subtractions are uint64 subtractions. *)
Definition MinDistance_code (val : Z) (paramName : string) (paramValue : types.Uint64Range)
  : Z * types.Uint64Range * option Error :=
  let dist := wrap_uint64 (Right paramValue - Left paramValue) in
  (val, paramValue,
   returned (
     dist ← (if negb (LeftClosed paramValue) then
               if dist >? 0 then mret (wrap_uint64 (dist - 1))
               else inl (NewError ErrorInvalidParam [paramName; "WrongRange"])
             else mret dist);
     dist ← (if negb (RightClosed paramValue) then
               if dist >? 0 then mret (wrap_uint64 (dist - 1))
               else inl (NewError ErrorInvalidParam [paramName; "WrongRange"])
             else mret dist);
     if dist <? val then
       inl (NewError ErrorInvalidParam [paramName; "TooNear"])
     else mret ())).

(** Body of the closure of [Uint64RangeFilter.MaxDistance]. *)
Definition MaxDistance_code (val : Z) (paramName : string) (paramValue : types.Uint64Range)
  : Z * types.Uint64Range * option Error :=
  let dist := wrap_uint64 (Right paramValue - Left paramValue) in
  (val, paramValue,
   returned (
     dist ← (if negb (LeftClosed paramValue) then
               if dist >? 0 then mret (wrap_uint64 (dist - 1))
               else inl (NewError ErrorInvalidParam [paramName; "WrongRange"])
             else mret dist);
     dist ← (if negb (RightClosed paramValue) then
               if dist >? 0 then mret (wrap_uint64 (dist - 1))
               else inl (NewError ErrorInvalidParam [paramName; "WrongRange"])
             else mret dist);
     if dist >? val then
       inl (NewError ErrorInvalidParam [paramName; "TooFar"])
     else mret ())).

Definition MinDistance_validator (val : Z) : Uint64RangeValidator :=
  mkValidator Z val MinDistance_code.

Definition MaxDistance_validator (val : Z) : Uint64RangeValidator :=
  mkValidator Z val MaxDistance_code.

End Uint64.

(** ** Run *)

(** A Go [interface{}] as [Run] tells its dynamic types apart: the nil
    interface (which the type switch, were it reached, sends to [default]), a string, a non-nil pointer to a range (with the range it
    points to), a range value, and a value of any other type. *)
Inductive interface : Type :=
| Nil
| Str (s : string)
| RangePtr (r : types.Int64Range)
| RangeVal (r : types.Int64Range)
| Other.

(** [for _, allowVal := range f.allowVals { if allowVal == val ... }] *)
Fixpoint allowed (allowVals : list string) (val : string) : bool :=
  match allowVals with
  | [] => false
  | allowVal :: rest => if String.eqb allowVal val then true else allowed rest val
  end.

(** The validator loop of [Run]: the closures as the loop leaves them, the
    range as it leaves it, and the first error. A validator after the first
    failing one is not called. *)
Fixpoint run_validators (paramName : string) (r : types.Int64Range)
    (vs : list Int64RangeValidator)
  : list Int64RangeValidator * types.Int64Range * option Error :=
  match vs with
  | [] => ([], r, None)
  | validator :: rest =>
      let '(validator', r', err) := call validator paramName r in
      match err with
      | Some e => (validator' :: rest, r', Some e)
      | None =>
          let '(rest', r'', err') := run_validators paramName r' rest in
          (validator' :: rest', r'', err')
      end
  end.

(** The filter after the validator loop has left its closures as [vs]. *)
Definition with_validators (f : Int64RangeFilter) (vs : list Int64RangeValidator)
  : Int64RangeFilter :=
  mkInt64RangeFilter (defaultLeftVal f) (defaultRightVal f) vs (allowVals f).

(** How the type switch of [Run] ends: with a return, at the label
    [parse_error], or with [int64Range] set. *)
Inductive coercion : Type :=
| Returns (val : interface)
| ParseError
| Coerced (int64Range : types.Int64Range).

Section WithParser.

(** [types.ParseInt64Range], of the package go-apibox/types; [None] is a
    non-nil error. *)
Variable ParseInt64Range : string → Z → Z → option types.Int64Range.

Definition coerce (f : Int64RangeFilter) (paramValue : interface) : coercion :=
  match paramValue with
  | Str val =>
      let val := Trim val run_cutset in
      if allowed (allowVals f) val then Returns (Str val)
      else
        match ParseInt64Range val (defaultLeftVal f) (defaultRightVal f) with
        | Some int64Range => Coerced int64Range
        | None => ParseError
        end
  | RangePtr val => Coerced val
  | RangeVal val => Coerced val
  | Nil | Other => ParseError
  end.

Definition Run (f : Int64RangeFilter) (paramName : string) (paramValue : interface)
  : Int64RangeFilter * (interface * option Error) :=
  match paramValue with
  | Nil => (f, (Nil, None))
  | _ =>
      match coerce f paramValue with
      | Returns val => (f, (val, None))
      | ParseError =>
          (f, (Nil, Some (NewError ErrorInvalidParam [paramName; "NotInt64Range"])))
      | Coerced int64Range =>
          let '(vs, int64Range, err) :=
            run_validators paramName int64Range (validators f) in
          let f := with_validators f vs in
          match err with
          | Some e => (f, (Nil, Some e))
          | None => (f, (RangePtr int64Range, None))
          end
      end
  end.

(** Successive calls of [Run] on the same filter; the results in call
    order. *)
Fixpoint Run_all (f : Int64RangeFilter) (calls : list (string * interface))
  : Int64RangeFilter * list (interface * option Error) :=
  match calls with
  | [] => (f, [])
  | (paramName, paramValue) :: rest =>
      let '(f1, res) := Run f paramName paramValue in
      let '(f2, ress) := Run_all f1 rest in
      (f2, res :: ress)
  end.

End WithParser.

(** ** The stages of a distance validator *)

(** The block guarded by [!paramValue.LeftClosed] (or [RightClosed]) of the
    int64 distance validators, on the big.Int [dist]. *)
Definition big_open_adjust (closed : bool) (paramName : string) (dist : Z) : Error + Z :=
  if negb closed then
    if big_Uint64 dist >? 0 then mret (big_Sub dist (big_NewInt 1))
    else inl (NewError ErrorInvalidParam [paramName; "WrongRange"])
  else mret dist.

(** The same block of the uint64 distance validators. *)
Definition u64_open_adjust (closed : bool) (paramName : string) (dist : Z) : Error + Z :=
  if negb closed then
    if dist >? 0 then mret (wrap_uint64 (dist - 1))
    else inl (NewError ErrorInvalidParam [paramName; "WrongRange"])
  else mret dist.

(** The final comparisons, on the uint64 width. *)
Definition too_near (val : Z) (paramName : string) (width : Z) : Error + unit :=
  if width <? val then inl (NewError ErrorInvalidParam [paramName; "TooNear"])
  else mret ().

Definition too_far (val : Z) (paramName : string) (width : Z) : Error + unit :=
  if width >? val then inl (NewError ErrorInvalidParam [paramName; "TooFar"])
  else mret ().

(** The number of open sides of a range. *)
Definition opens (r : types.Range) : Z :=
  (if LeftClosed r then 0 else 1) + (if RightClosed r then 0 else 1).

(** ** The validator chain *)

(** [chain_passes paramName r vs vs' r']: called one after the other from
    the range [r], every closure of [vs] returns nil; the calls leave the
    closures as [vs'] and the range as [r']. *)
Inductive chain_passes (paramName : string)
  : types.Int64Range → list Int64RangeValidator → list Int64RangeValidator →
    types.Int64Range → Prop :=
| chain_nil r : chain_passes paramName r [] [] r
| chain_cons r v vs v' r' vs' r'' :
    call v paramName r = (v', r', None) →
    chain_passes paramName r' vs vs' r'' →
    chain_passes paramName r (v :: vs) (v' :: vs') r''.

(** A result of [Run] that carries both a value and an error. *)
Definition value_and_error (res : interface * option Error) : Prop :=
  res.1 ≠ Nil ∧ res.2 ≠ None.

(** ** Int64RangeFilter: the other boundary validators *)

(** Body of the closure of [LeftMax]. *)
Definition LeftMax_code (val : Z) (paramName : string) (paramValue : types.Int64Range)
  : Z * types.Int64Range * option Error :=
  let val :=
    if negb (LeftClosed paramValue) then
      if val >? MinInt64 then wrap_int64 (val - 1) else val
    else val in
  if Left paramValue >? val then
    (val, paramValue, Some (NewError ErrorInvalidParam [paramName; "LeftTooLarge"]))
  else (val, paramValue, None).

Definition LeftMax (val : Z) (f : Int64RangeFilter) : Int64RangeFilter :=
  AddValidator (mkValidator Z val LeftMax_code) f.

(** Body of the closure of [LeftLargerThan]. *)
Definition LeftLargerThan_code (val : Z) (paramName : string)
    (paramValue : types.Int64Range) : Z * types.Int64Range * option Error :=
  let val :=
    if negb (LeftClosed paramValue) then
      if val >? MinInt64 then wrap_int64 (val - 1) else val
    else val in
  if Left paramValue <=? val then
    (val, paramValue, Some (NewError ErrorInvalidParam [paramName; "LeftTooSmall"]))
  else (val, paramValue, None).

Definition LeftLargerThan (val : Z) (f : Int64RangeFilter) : Int64RangeFilter :=
  AddValidator (mkValidator Z val LeftLargerThan_code) f.

(** Body of the closure of [LeftSmallerThan]. *)
Definition LeftSmallerThan_code (val : Z) (paramName : string)
    (paramValue : types.Int64Range) : Z * types.Int64Range * option Error :=
  let val :=
    if negb (LeftClosed paramValue) then
      if val >? MinInt64 then wrap_int64 (val - 1) else val
    else val in
  if Left paramValue >=? val then
    (val, paramValue, Some (NewError ErrorInvalidParam [paramName; "LeftTooLarge"]))
  else (val, paramValue, None).

Definition LeftSmallerThan (val : Z) (f : Int64RangeFilter) : Int64RangeFilter :=
  AddValidator (mkValidator Z val LeftSmallerThan_code) f.

(** Body of the closure of [LeftEqual]. *)
Definition LeftEqual_code (val : Z) (paramName : string) (paramValue : types.Int64Range)
  : Z * types.Int64Range * option Error :=
  let val :=
    if negb (LeftClosed paramValue) then
      if val >? MinInt64 then wrap_int64 (val - 1) else val
    else val in
  if Left paramValue <? val then
    (val, paramValue, Some (NewError ErrorInvalidParam [paramName; "LeftTooSmall"]))
  else if Left paramValue >? val then
    (val, paramValue, Some (NewError ErrorInvalidParam [paramName; "LeftTooLarge"]))
  else (val, paramValue, None).

Definition LeftEqual (val : Z) (f : Int64RangeFilter) : Int64RangeFilter :=
  AddValidator (mkValidator Z val LeftEqual_code) f.

(** Body of the closure of [LeftBetween]; it captures [min] and [max]. *)
Definition LeftBetween_code (minmax : Z * Z) (paramName : string)
    (paramValue : types.Int64Range) : Z * Z * types.Int64Range * option Error :=
  let '(min, max) := minmax in
  let min :=
    if negb (LeftClosed paramValue) then
      if min >? MinInt64 then wrap_int64 (min - 1) else min
    else min in
  let max :=
    if negb (LeftClosed paramValue) then
      if max >? MinInt64 then wrap_int64 (max - 1) else max
    else max in
  if Left paramValue <? min then
    ((min, max), paramValue, Some (NewError ErrorInvalidParam [paramName; "LeftTooSmall"]))
  else if Left paramValue >? max then
    ((min, max), paramValue, Some (NewError ErrorInvalidParam [paramName; "LeftTooLarge"]))
  else ((min, max), paramValue, None).

Definition LeftBetween (min max : Z) (f : Int64RangeFilter) : Int64RangeFilter :=
  AddValidator (mkValidator (Z * Z) (min, max) LeftBetween_code) f.

(** Body of the closure of [RightMin]. *)
Definition RightMin_code (val : Z) (paramName : string) (paramValue : types.Int64Range)
  : Z * types.Int64Range * option Error :=
  let val :=
    if negb (RightClosed paramValue) then
      if val <? MaxInt64 then wrap_int64 (val + 1) else val
    else val in
  if Right paramValue <? val then
    (val, paramValue, Some (NewError ErrorInvalidParam [paramName; "RightTooSmall"]))
  else (val, paramValue, None).

Definition RightMin (val : Z) (f : Int64RangeFilter) : Int64RangeFilter :=
  AddValidator (mkValidator Z val RightMin_code) f.

(** Body of the closure of [RightLargerThan]. *)
Definition RightLargerThan_code (val : Z) (paramName : string)
    (paramValue : types.Int64Range) : Z * types.Int64Range * option Error :=
  let val :=
    if negb (RightClosed paramValue) then
      if val <? MaxInt64 then wrap_int64 (val + 1) else val
    else val in
  if Right paramValue <=? val then
    (val, paramValue, Some (NewError ErrorInvalidParam [paramName; "RightTooSmall"]))
  else (val, paramValue, None).

Definition RightLargerThan (val : Z) (f : Int64RangeFilter) : Int64RangeFilter :=
  AddValidator (mkValidator Z val RightLargerThan_code) f.

(** Body of the closure of [RightSmallerThan]. *)
Definition RightSmallerThan_code (val : Z) (paramName : string)
    (paramValue : types.Int64Range) : Z * types.Int64Range * option Error :=
  let val :=
    if negb (RightClosed paramValue) then
      if val <? MaxInt64 then wrap_int64 (val + 1) else val
    else val in
  if Right paramValue >=? val then
    (val, paramValue, Some (NewError ErrorInvalidParam [paramName; "RightTooLarge"]))
  else (val, paramValue, None).

Definition RightSmallerThan (val : Z) (f : Int64RangeFilter) : Int64RangeFilter :=
  AddValidator (mkValidator Z val RightSmallerThan_code) f.

(** Body of the closure of [RightEqual]. *)
Definition RightEqual_code (val : Z) (paramName : string) (paramValue : types.Int64Range)
  : Z * types.Int64Range * option Error :=
  let val :=
    if negb (RightClosed paramValue) then
      if val <? MaxInt64 then wrap_int64 (val + 1) else val
    else val in
  if Right paramValue <? val then
    (val, paramValue, Some (NewError ErrorInvalidParam [paramName; "RightTooSmall"]))
  else if Right paramValue >? val then
    (val, paramValue, Some (NewError ErrorInvalidParam [paramName; "RightTooLarge"]))
  else (val, paramValue, None).

Definition RightEqual (val : Z) (f : Int64RangeFilter) : Int64RangeFilter :=
  AddValidator (mkValidator Z val RightEqual_code) f.

(** Body of the closure of [RightBetween]. *)
Definition RightBetween_code (minmax : Z * Z) (paramName : string)
    (paramValue : types.Int64Range) : Z * Z * types.Int64Range * option Error :=
  let '(min, max) := minmax in
  let min :=
    if negb (RightClosed paramValue) then
      if min <? MaxInt64 then wrap_int64 (min + 1) else min
    else min in
  let max :=
    if negb (RightClosed paramValue) then
      if max <? MaxInt64 then wrap_int64 (max + 1) else max
    else max in
  if Right paramValue <? min then
    ((min, max), paramValue, Some (NewError ErrorInvalidParam [paramName; "RightTooSmall"]))
  else if Right paramValue >? max then
    ((min, max), paramValue, Some (NewError ErrorInvalidParam [paramName; "RightTooLarge"]))
  else ((min, max), paramValue, None).

Definition RightBetween (min max : Z) (f : Int64RangeFilter) : Int64RangeFilter :=
  AddValidator (mkValidator (Z * Z) (min, max) RightBetween_code) f.

(** ** The integers of a range *)

(** The smallest and the largest integer of the interval a range denotes
    (the interval is empty when the first exceeds the last). *)
Definition first_elem (r : types.Range) : Z :=
  if LeftClosed r then Left r else Left r + 1.

Definition last_elem (r : types.Range) : Z :=
  if RightClosed r then Right r else Right r - 1.

(** ** Repeated use of a validator *)

(** Successive calls of one closure, on the ranges of [rs] in order: the
    closure as the calls leave it and what each call returned. *)
Fixpoint calls {R : Type} (v : Validator R) (paramName : string) (rs : list R)
  : Validator R * list (option Error) :=
  match rs with
  | [] => (v, [])
  | r :: rest =>
      let '(v1, _, err) := call v paramName r in
      let '(v2, errs) := calls v1 paramName rest in
      (v2, err :: errs)
  end.

(** The validators the builder methods of [Int64RangeFilter] register,
    whatever their captured variables hold. *)
Inductive builtin : Int64RangeValidator → Prop :=
| builtin_LeftMin val : builtin (mkValidator Z val LeftMin_code)
| builtin_LeftMax val : builtin (mkValidator Z val LeftMax_code)
| builtin_LeftLargerThan val : builtin (mkValidator Z val LeftLargerThan_code)
| builtin_LeftSmallerThan val : builtin (mkValidator Z val LeftSmallerThan_code)
| builtin_LeftEqual val : builtin (mkValidator Z val LeftEqual_code)
| builtin_LeftBetween mm : builtin (mkValidator (Z * Z) mm LeftBetween_code)
| builtin_RightMin val : builtin (mkValidator Z val RightMin_code)
| builtin_RightMax val : builtin (mkValidator Z val RightMax_code)
| builtin_RightLargerThan val : builtin (mkValidator Z val RightLargerThan_code)
| builtin_RightSmallerThan val : builtin (mkValidator Z val RightSmallerThan_code)
| builtin_RightEqual val : builtin (mkValidator Z val RightEqual_code)
| builtin_RightBetween mm : builtin (mkValidator (Z * Z) mm RightBetween_code)
| builtin_MinDistance val : builtin (mkValidator Z val MinDistance_code)
| builtin_MaxDistance val : builtin (mkValidator Z val MaxDistance_code).

(** The reason codes of the validators of [Int64RangeFilter]. *)
Definition range_reasons : list string :=
  ["LeftTooSmall"; "LeftTooLarge"; "RightTooSmall"; "RightTooLarge";
   "WrongRange"; "TooNear"; "TooFar"].

(** An invalid-param error of the parameter [paramName] whose reason code
    is one of [reasons]. *)
Definition param_error (paramName : string) (reasons : list string) (e : Error)
  : Prop :=
  Type_ e = ErrorInvalidParam
  ∧ ∃ reason, reason ∈ reasons ∧ Fields e = [paramName; reason].

Definition both_closed (r : types.Range) : Prop :=
  LeftClosed r = true ∧ RightClosed r = true.

(** ** RequiredFilter, DefaultFilter, EmptyToNilFilter *)

(** [RequiredFilter.Run] *)
Definition RequiredFilter_Run (paramName : string) (paramValue : interface)
  : interface * option Error :=
  match paramValue with
  | Nil => (Nil, Some (NewError ErrorMissingParam [paramName]))
  | _ => (paramValue, None)
  end.

(** [DefaultFilter.Run], of the filter [Default(defaultVal)]. *)
Definition DefaultFilter_Run (defaultVal : interface) (paramName : string)
    (paramValue : interface) : interface * option Error :=
  match paramValue with
  | Nil => (defaultVal, None)
  | _ => (paramValue, None)
  end.

(** [EmptyToNilFilter.Run]; an interface value equals the constant empty
    string when it holds a string and that string is empty. *)
Definition EmptyToNilFilter_Run (paramName : string) (paramValue : interface)
  : interface * option Error :=
  match paramValue with
  | Str EmptyString => (Nil, None)
  | _ => (paramValue, None)
  end.

(** ** IntFilter *)

Module IntFilter.

(** A value of type [func(paramName string, paramValue int) *Error]: the
    parameter value is passed by value, the captured variables are kept
    between calls. *)
Record IntValidator : Type := mkIntValidator {
  captured : Type;
  env : captured;
  code : captured → string → Z → captured * option Error
}.

Record IntFilter : Type := mkIntFilter {
  base : Z;
  validators : list IntValidator;
  allowVals : list string
}.


Definition Allow (vals : list string) (f : IntFilter) : IntFilter :=
  mkIntFilter (base f) (validators f) (allowVals f ++ vals).

Definition Base (b : Z) (f : IntFilter) : IntFilter :=
  mkIntFilter b (validators f) (allowVals f).

Definition AddValidator (validator : IntValidator) (f : IntFilter) : IntFilter :=
  mkIntFilter (base f) (validators f ++ [validator]) (allowVals f).

Definition Min_code (val : Z) (paramName : string) (paramValue : Z)
  : Z * option Error :=
  if paramValue <? val then
    (val, Some (NewError ErrorInvalidParam [paramName; "TooSmall"]))
  else (val, None).

Definition Max_code (val : Z) (paramName : string) (paramValue : Z)
  : Z * option Error :=
  if paramValue >? val then
    (val, Some (NewError ErrorInvalidParam [paramName; "TooLarge"]))
  else (val, None).

Definition LargerThan_code (val : Z) (paramName : string) (paramValue : Z)
  : Z * option Error :=
  if paramValue <=? val then
    (val, Some (NewError ErrorInvalidParam [paramName; "TooSmall"]))
  else (val, None).

Definition SmallerThan_code (val : Z) (paramName : string) (paramValue : Z)
  : Z * option Error :=
  if paramValue >=? val then
    (val, Some (NewError ErrorInvalidParam [paramName; "TooLarge"]))
  else (val, None).

Definition Equal_code (val : Z) (paramName : string) (paramValue : Z)
  : Z * option Error :=
  if paramValue <? val then
    (val, Some (NewError ErrorInvalidParam [paramName; "TooSmall"]))
  else if paramValue >? val then
    (val, Some (NewError ErrorInvalidParam [paramName; "TooLarge"]))
  else (val, None).

Definition Between_code (minmax : Z * Z) (paramName : string) (paramValue : Z)
  : Z * Z * option Error :=
  let '(min, max) := minmax in
  if paramValue <? min then
    ((min, max), Some (NewError ErrorInvalidParam [paramName; "TooSmall"]))
  else if paramValue >? max then
    ((min, max), Some (NewError ErrorInvalidParam [paramName; "TooLarge"]))
  else ((min, max), None).

(** [for _, v := range set { if v == paramValue { return nil } }] *)
Fixpoint in_set (set : list Z) (paramValue : Z) : bool :=
  match set with
  | [] => false
  | v :: rest => if v =? paramValue then true else in_set rest paramValue
  end.

Definition In_code (set : list Z) (paramName : string) (paramValue : Z)
  : list Z * option Error :=
  if in_set set paramValue then (set, None)
  else (set, Some (NewError ErrorInvalidParam [paramName; "NotInSet"])).

Definition Min (val : Z) : IntFilter → IntFilter :=
  AddValidator (mkIntValidator Z val Min_code).
Definition Max (val : Z) : IntFilter → IntFilter :=
  AddValidator (mkIntValidator Z val Max_code).
Definition LargerThan (val : Z) : IntFilter → IntFilter :=
  AddValidator (mkIntValidator Z val LargerThan_code).
Definition SmallerThan (val : Z) : IntFilter → IntFilter :=
  AddValidator (mkIntValidator Z val SmallerThan_code).
Definition Equal (val : Z) : IntFilter → IntFilter :=
  AddValidator (mkIntValidator Z val Equal_code).

(** A Go [interface{}] as [IntFilter.Run] tells its dynamic types apart. *)
Inductive value : Type :=
| VNil
| VStr (s : string)
| VInt (i : Z)
| VOther.

Fixpoint run_validators (paramName : string) (intVal : Z) (vs : list IntValidator)
  : list IntValidator * option Error :=
  match vs with
  | [] => ([], None)
  | validator :: rest =>
      let '(env', err) := code validator (env validator) paramName intVal in
      let validator' := mkIntValidator (captured validator) env' (code validator) in
      match err with
      | Some e => (validator' :: rest, Some e)
      | None =>
          let '(rest', err') := run_validators paramName intVal rest in
          (validator' :: rest', err')
      end
  end.

Section WithParseInt.

(** [strconv.ParseInt(s, base, 0)]; [None] is a non-nil error. With bit
    size 0 the result fits an [int], so the conversion [int(v)] of [Run]
    keeps it. *)
Variable ParseInt : string → Z → option Z.

Definition Run (f : IntFilter) (paramName : string) (paramValue : value)
  : IntFilter * (value * option Error) :=
  let parse_error :=
    (f, (VNil, Some (NewError ErrorInvalidParam [paramName; "NotInt"]))) in
  let validate (intVal : Z) :=
    let '(vs, err) := run_validators paramName intVal (validators f) in
    let f := mkIntFilter (base f) vs (allowVals f) in
    match err with
    | Some e => (f, (VNil, Some e))
    | None => (f, (VInt intVal, None))
    end in
  match paramValue with
  | VNil => (f, (VNil, None))
  | VStr val =>
      let val := Trim val run_cutset in
      if allowed (allowVals f) val then (f, (VStr val, None))
      else
        match ParseInt val (base f) with
        | Some v => validate v
        | None => parse_error
        end
  | VInt val => validate val
  | VOther => parse_error
  end.

End WithParseInt.

(** The validators the builder methods of [IntFilter] register. *)
Inductive builtin : IntValidator → Prop :=
| builtin_Min val : builtin (mkIntValidator Z val Min_code)
| builtin_Max val : builtin (mkIntValidator Z val Max_code)
| builtin_LargerThan val : builtin (mkIntValidator Z val LargerThan_code)
| builtin_SmallerThan val : builtin (mkIntValidator Z val SmallerThan_code)
| builtin_Equal val : builtin (mkIntValidator Z val Equal_code)
| builtin_Between mm : builtin (mkIntValidator (Z * Z) mm Between_code)
| builtin_In set : builtin (mkIntValidator (list Z) set In_code).

End IntFilter.

(** A call of a validator body that leaves the range as it is, leaves the
    captured variables as they are when both sides of the range are closed,
    and fails with errors of the filter only. *)
Definition well_behaved {E : Type}
    (body : E → string → types.Int64Range → E * types.Int64Range * option Error)
    (env : E) (paramName : string) (r : types.Int64Range) : Prop :=
  ∃ env' err,
    body env paramName r = (env', r, err)
    ∧ (both_closed r → env' = env)
    ∧ (∀ e, err = Some e → param_error paramName range_reasons e).

(** ** Chains of builder calls *)

(** One call of a builder method of [Int64RangeFilter]; the methods that
    register a validator all go through [AddValidator]. *)
Inductive builder_call : Type :=
| CallAllow (vals : list string)
| CallLeftDefault (val : Z)
| CallRightDefault (val : Z)
| CallAddValidator (validator : Int64RangeValidator).

Definition build_step (f : Int64RangeFilter) (c : builder_call) : Int64RangeFilter :=
  match c with
  | CallAllow vals => Allow vals f
  | CallLeftDefault val => LeftDefault val f
  | CallRightDefault val => RightDefault val f
  | CallAddValidator validator => AddValidator validator f
  end.

(** [f.M1(...).M2(...)...]: the calls of [cs] made on [f] in order. *)
Definition build (f : Int64RangeFilter) (cs : list builder_call) : Int64RangeFilter :=
  fold_left build_step cs f.

Definition allowed_by (c : builder_call) : list string :=
  match c with CallAllow vals => vals | _ => [] end.

Definition registered_by (c : builder_call) : option Int64RangeValidator :=
  match c with CallAddValidator v => Some v | _ => None end.

Definition left_default_of (c : builder_call) : option Z :=
  match c with CallLeftDefault val => Some val | _ => None end.

Definition right_default_of (c : builder_call) : option Z :=
  match c with CallRightDefault val => Some val | _ => None end.

(** ** Uint64RangeFilter: two boundary validators *)

(** Body of the closure of [Uint64RangeFilter.LeftMin]. *)
Definition Uint64_LeftMin_code (val : Z) (paramName : string)
    (paramValue : types.Uint64Range) : Z * types.Uint64Range * option Error :=
  let val :=
    if negb (LeftClosed paramValue) then
      if val >? 0 then wrap_uint64 (val - 1) else val
    else val in
  if Left paramValue <? val then
    (val, paramValue, Some (NewError ErrorInvalidParam [paramName; "LeftTooSmall"]))
  else (val, paramValue, None).

(** Body of the closure of [Uint64RangeFilter.RightMax]. *)
Definition Uint64_RightMax_code (val : Z) (paramName : string)
    (paramValue : types.Uint64Range) : Z * types.Uint64Range * option Error :=
  let val :=
    if negb (RightClosed paramValue) then
      if val <? MaxUint64 then wrap_uint64 (val + 1) else val
    else val in
  if Right paramValue >? val then
    (val, paramValue, Some (NewError ErrorInvalidParam [paramName; "RightTooLarge"]))
  else (val, paramValue, None).

(** * Properties *)

(** ** Arithmetic of the embedded integers *)

Lemma wrap_int64_id (z : Z) : is_int64 z → wrap_int64 z = z.
Proof.
  unfold is_int64, MinInt64, MaxInt64, wrap_int64. intros Hz.
  rewrite Z.mod_small; lia.
Qed.

Lemma wrap_uint64_id (z : Z) : is_uint64 z → wrap_uint64 z = z.
Proof.
  unfold is_uint64, MaxUint64, wrap_uint64. intros Hz.
  rewrite Z.mod_small; lia.
Qed.

Lemma big_Uint64_nonneg (x : Z) : 0 ≤ x ≤ MaxUint64 → big_Uint64 x = x.
Proof.
  unfold MaxUint64, big_Uint64. intros Hx.
  rewrite Z.abs_eq by lia. rewrite Z.mod_small; lia.
Qed.


Lemma int64_width_bounds (r : types.Int64Range) :
  int64_range r → - MaxUint64 ≤ Right r - Left r ≤ MaxUint64.
Proof.
  unfold int64_range, is_int64, MinInt64, MaxInt64, MaxUint64. lia.
Qed.

(** ** Strings *)

Lemma string_length_app (s t : string) :
  String.length (s +:+ t) = (String.length s + String.length t)%nat.
Proof.
  induction s as [|c s IH]; [reflexivity|].
  change (String c s +:+ t) with (String c (s +:+ t)).
  cbn [String.length]. by rewrite IH.
Qed.

Lemma Join_cons (x : string) (rest : list string) (sep : string) :
  rest ≠ [] → Join (x :: rest) sep = x +:+ sep +:+ Join rest sep.
Proof. by destruct rest. Qed.

Lemma allowed_elem_of (allowVals : list string) (val : string) :
  allowed allowVals val = true ↔ val ∈ allowVals.
Proof.
  induction allowVals as [|a rest IH]; cbn [allowed].
  - split; [done | by intros ?%elem_of_nil].
  - rewrite elem_of_cons. destruct (String.eqb_spec a val) as [->|Hne].
    + by split; [left|].
    + rewrite IH. split; [by right | intros [?|?]; congruence].
Qed.

(** ** The error module *)

Lemma Error_calls_length (n : nat) (e : Error) :
  length (Fields (Error_calls n e).1) = (n + length (Fields e))%nat.
Proof.
  revert e. induction n as [|n IH]; intros e; [reflexivity|].
  cbn [Error_calls]. unfold Error_Error.
  destruct (Error_calls n _) as [e2 ss] eqn:Hcalls.
  cbn [fst]. replace e2 with (Error_calls n
    (mkError (Type_ e) (appErrorCode (Type_ e) :: Fields e))).1
    by (by rewrite Hcalls).
  rewrite IH. cbn [Fields length]. lia.
Qed.

(** C10. Stringifying an error is not idempotent. A call of [Error()]
    stores the label of the kind in front of [Fields] and joins the stored
    list with a colon; a second call on the same value therefore returns the
    label, a colon, and the string of the first call, which is a different
    string; [Fields] grows by one element with every call. The error built
    from [ErrorInvalidParam], [name] and [reason] gives
    [InvalidParam:name:reason] and then
    [InvalidParam:InvalidParam:name:reason]. *)
Theorem Error_Error_not_idempotent (e : Error) :
  let label := appErrorCode (Type_ e) in
  let first := Error_Error e in
  let second := Error_Error first.1 in
  Fields first.1 = label :: Fields e
  ∧ first.2 = Join (label :: Fields e) ":"
  ∧ Fields second.1 = label :: label :: Fields e
  ∧ second.2 = label +:+ ":" +:+ first.2
  ∧ second.2 ≠ first.2
  ∧ (∀ n, length (Fields (Error_calls n e).1) = (n + length (Fields e))%nat)
  ∧ (Error_calls 2 (NewError ErrorInvalidParam ["name"; "reason"])).2
    = ["InvalidParam:name:reason"; "InvalidParam:InvalidParam:name:reason"].
Proof.
  intros label first second. subst first second. unfold Error_Error.
  cbn [fst snd Type_ Fields].
  assert (Hsnd : Join (label :: label :: Fields e) ":"
                 = label +:+ ":" +:+ Join (label :: Fields e) ":")
    by (by apply Join_cons).
  repeat split; try done.
  - fold label. rewrite Hsnd. intros Heq. apply (f_equal String.length) in Heq.
    rewrite !string_length_app in Heq. cbn in Heq. lia.
  - intros n. exact (Error_calls_length n e).
Qed.

(** ** Boundary validators *)

(** The number of open sides, once the flags are known. *)
Ltac norm_opens :=
  change (0 + 0) with 0 in *; change (0 + 1) with 1 in *;
  change (1 + 0) with 1 in *; change (1 + 1) with 2 in *.

Ltac unfold_int64 :=
  unfold int64_range, uint64_range, is_int64, is_uint64,
    MinInt64, MaxInt64, MaxUint64 in *.

(** Case analysis on every integer comparison of the goal. *)
Ltac case_cmp :=
  rewrite ?Z.gtb_ltb;
  repeat match goal with
         | |- context [?a <? ?b] => destruct (Z.ltb_spec a b)
         end.

(** One call of the closure of [LeftMin] whose captured variable holds
    [val]: the threshold is [val] for a left-closed range and [val - 1],
    not below [MinInt64], for a left-open one; the call fails exactly when
    [Left] is below it, and it leaves the threshold in the captured
    variable. *)
Lemma LeftMin_code_spec (val : Z) (paramName : string) (r : types.Int64Range) :
  is_int64 val →
  let threshold := if LeftClosed r then val else Z.max MinInt64 (val - 1) in
  is_int64 threshold
  ∧ LeftMin_code val paramName r =
      (threshold, r,
       if Left r <? threshold
       then Some (NewError ErrorInvalidParam [paramName; "LeftTooSmall"])
       else None).
Proof.
  intros Hval. unfold LeftMin_code.
  destruct (LeftClosed r); cbn [negb].
  - split; [done|]. by case_cmp.
  - destruct (Z.gtb_spec val MinInt64) as [Hgt|Hle].
    + rewrite wrap_int64_id by (unfold_int64; lia).
      rewrite Z.max_r by lia.
      split; [unfold_int64; lia|]. by case_cmp.
    + rewrite Z.max_l by lia.
      assert (val = MinInt64) as -> by (unfold_int64; lia).
      split; [done|]. by case_cmp.
Qed.

(** C1. [LeftMin] keeps the adjusted threshold in the variable it
    captured. On the filter [Int64Range().LeftMin(5)] a left-closed range
    with [Left = 4] fails with [LeftTooSmall] when it comes first, and passes
    when a left-open range has been validated before it: the call for the
    left-open range left the threshold at 4. *)
Theorem LeftMin_threshold_drifts
    (ParseInt64Range : string → Z → Z → option types.Int64Range) :
  let f := LeftMin 5 Int64Range in
  let open := mkRange 4 10 false true in
  let closed := mkRange 4 10 true true in
  (Run ParseInt64Range f "x" (RangeVal closed)).2
    = (Nil, Some (NewError ErrorInvalidParam ["x"; "LeftTooSmall"]))
  ∧ (Run_all ParseInt64Range f [("x", RangeVal open); ("x", RangeVal closed)]).2
    = [(RangePtr open, None); (RangePtr closed, None)]
  ∧ validators (Run ParseInt64Range f "x" (RangeVal open)).1
    = [mkValidator Z 4 LeftMin_code].
Proof. repeat split. Qed.

(** C5. [RightMax(MaxInt64)] passes every int64 range. The increment for a
    right-open range is guarded by [val < MaxInt64], so the threshold stays
    [MaxInt64] and nothing wraps; the test is [Right > MaxInt64], which no
    int64 satisfies. The call leaves the captured threshold, and so the
    filter, as it found it. *)
Theorem RightMax_MaxInt64_passes
    (ParseInt64Range : string → Z → Z → option types.Int64Range)
    (paramName : string) (r : types.Int64Range) :
  int64_range r →
  RightMax_code MaxInt64 paramName r
    = (MaxInt64, r,
       if Right r >? MaxInt64
       then Some (NewError ErrorInvalidParam [paramName; "RightTooLarge"])
       else None)
  ∧ RightMax_code MaxInt64 paramName r = (MaxInt64, r, None)
  ∧ Run ParseInt64Range (RightMax MaxInt64 Int64Range) paramName (RangeVal r)
    = (RightMax MaxInt64 Int64Range, (RangePtr r, None)).
Proof.
  intros [_ Hright].
  assert (Hcode : RightMax_code MaxInt64 paramName r = (MaxInt64, r, None)).
  { unfold RightMax_code. rewrite Z.ltb_irrefl.
    destruct (RightClosed r); cbn [negb];
      destruct (Z.gtb_spec (Right r) MaxInt64); try done;
      unfold_int64; lia. }
  split_and!; [|done|].
  - rewrite Hcode. destruct (Z.gtb_spec (Right r) MaxInt64); [|done].
    unfold_int64; lia.
  - unfold Run, coerce, RightMax, AddValidator. cbn [validators app Int64Range].
    cbn [run_validators]. unfold call. cbn [code env]. by rewrite Hcode.
Qed.

Lemma RightMax_MaxInt64_passes_witness :
  let r := mkRange 0 MaxInt64 true false in
  int64_range r
  ∧ Run (λ _ _ _, None) (RightMax MaxInt64 Int64Range) "x" (RangeVal r)
    = (RightMax MaxInt64 Int64Range, (RangePtr r, None)).
Proof.
  split.
  - unfold_int64. cbn. lia.
  - apply (RightMax_MaxInt64_passes (λ _ _ _, None) "x"
             (mkRange 0 MaxInt64 true false)).
    unfold_int64. cbn. lia.
Defined.

(** ** Distance validators *)

(** The body of each distance validator is its three stages in sequence. *)
Lemma MinDistance_stages (val : Z) (paramName : string) (r : types.Range) :
  MinDistance_code val paramName r
  = (val, r,
     returned (
       d1 ← big_open_adjust (LeftClosed r) paramName
              (big_Sub (big_NewInt (Right r)) (big_NewInt (Left r)));
       d2 ← big_open_adjust (RightClosed r) paramName d1;
       too_near val paramName (big_Uint64 d2))).
Proof. reflexivity. Qed.

Lemma MaxDistance_stages (val : Z) (paramName : string) (r : types.Range) :
  MaxDistance_code val paramName r
  = (val, r,
     returned (
       d1 ← big_open_adjust (LeftClosed r) paramName
              (big_Sub (big_NewInt (Right r)) (big_NewInt (Left r)));
       d2 ← big_open_adjust (RightClosed r) paramName d1;
       too_far val paramName (big_Uint64 d2))).
Proof. reflexivity. Qed.

Lemma Uint64_MinDistance_stages (val : Z) (paramName : string) (r : types.Range) :
  Uint64.MinDistance_code val paramName r
  = (val, r,
     returned (
       d1 ← u64_open_adjust (LeftClosed r) paramName (wrap_uint64 (Right r - Left r));
       d2 ← u64_open_adjust (RightClosed r) paramName d1;
       too_near val paramName d2)).
Proof. reflexivity. Qed.

Lemma Uint64_MaxDistance_stages (val : Z) (paramName : string) (r : types.Range) :
  Uint64.MaxDistance_code val paramName r
  = (val, r,
     returned (
       d1 ← u64_open_adjust (LeftClosed r) paramName (wrap_uint64 (Right r - Left r));
       d2 ← u64_open_adjust (RightClosed r) paramName d1;
       too_far val paramName d2)).
Proof. reflexivity. Qed.

(** One adjustment of a uint64 width. *)
Lemma u64_open_adjust_spec (closed : bool) (paramName : string) (w : Z) :
  is_uint64 w →
  u64_open_adjust closed paramName w
  = if closed then inr w
    else if w <? 1 then inl (NewError ErrorInvalidParam [paramName; "WrongRange"])
    else inr (w - 1).
Proof.
  intros Hw. unfold u64_open_adjust. destruct closed; cbn [negb]; [done|].
  destruct (Z.gtb_spec w 0); case_cmp; try lia; [|done].
  unfold mret, early_ret. by rewrite wrap_uint64_id by (unfold_int64; lia).
Qed.

(** What the two adjustments make of a uint64 width [w]: an error when
    there are more open sides than width, the width less the open sides
    otherwise. *)
Lemma u64_stages_outcome (paramName : string) (r : types.Range) (w : Z)
    (compare : Z → Error + unit) :
  is_uint64 w →
  returned (d1 ← u64_open_adjust (LeftClosed r) paramName w;
            d2 ← u64_open_adjust (RightClosed r) paramName d1;
            compare d2)
  = if w <? opens r
    then Some (NewError ErrorInvalidParam [paramName; "WrongRange"])
    else returned (compare (w - opens r)).
Proof.
  intros Hw. unfold opens.
  rewrite (u64_open_adjust_spec _ _ w Hw).
  destruct (LeftClosed r); cbn [negb mbind early_bind mret early_ret].
  - rewrite (u64_open_adjust_spec _ _ w Hw).
    destruct (RightClosed r); cbn [negb mbind early_bind mret early_ret]; norm_opens.
    + rewrite Z.sub_0_r. case_cmp; [unfold_int64; lia | done].
    + by case_cmp.
  - destruct (Z.ltb_spec w 1) as [Hlt|Hge]; cbn [negb mbind early_bind mret early_ret].
    + by destruct (RightClosed r); norm_opens; case_cmp; try lia.
    + rewrite u64_open_adjust_spec by (unfold_int64; lia).
      destruct (RightClosed r); cbn [negb mbind early_bind mret early_ret]; norm_opens.
      * by case_cmp; try lia.
      * replace (w - 1 - 1) with (w - 2) by lia.
        by case_cmp; try lia.
Qed.

(** The same for the big.Int of an int64 range with [Left <= Right]. *)
Lemma big_stages_outcome (paramName : string) (r : types.Range) (d : Z)
    (compare : Z → Error + unit) :
  is_uint64 d →
  returned (d1 ← big_open_adjust (LeftClosed r) paramName d;
            d2 ← big_open_adjust (RightClosed r) paramName d1;
            compare (big_Uint64 d2))
  = if d <? opens r
    then Some (NewError ErrorInvalidParam [paramName; "WrongRange"])
    else returned (compare (d - opens r)).
Proof.
  intros Hd. unfold opens, big_open_adjust, big_Sub, big_NewInt.
  assert (H0 : big_Uint64 d = d) by (apply big_Uint64_nonneg; unfold_int64; lia).
  destruct (LeftClosed r); cbn [negb mbind early_bind mret early_ret].
  - destruct (RightClosed r); cbn [negb mbind early_bind mret early_ret];
      norm_opens; rewrite H0.
    + rewrite Z.sub_0_r. case_cmp; [unfold_int64; lia | done].
    + destruct (Z.gtb_spec d 0); case_cmp; try lia; [|done].
      cbn [negb mbind early_bind mret early_ret]. by rewrite big_Uint64_nonneg by (unfold_int64; lia).
  - rewrite H0. destruct (Z.gtb_spec d 0); cbn [negb mbind early_bind mret early_ret].
    + rewrite (big_Uint64_nonneg (d - 1)) by (unfold_int64; lia).
      destruct (RightClosed r); cbn [negb mbind early_bind mret early_ret];
        norm_opens.
      * rewrite (big_Uint64_nonneg (d - 1)) by (unfold_int64; lia).
        by case_cmp; try lia.
      * destruct (Z.gtb_spec (d - 1) 0); case_cmp; try lia; [|done].
        cbn [negb mbind early_bind mret early_ret].
        rewrite (big_Uint64_nonneg (d - 1 - 1)) by (unfold_int64; lia).
        by replace (d - 1 - 1) with (d - 2) by lia.
    + by destruct (RightClosed r); norm_opens; case_cmp; try lia.
Qed.


(** C2. The int64 distance validators subtract in big.Int: for an int64
    range with [Left <= Right] the difference is the exact [Right - Left],
    it lies in the uint64 range and [Uint64()] returns it unchanged. The
    validators therefore decide on the exact width: [WrongRange] when there
    are more open sides than width, else [MinDistance(val)] fails exactly
    when the width less the open sides is below [val], and
    [MaxDistance(val)] exactly when it is above. For the range from
    [MinInt64] to [MaxInt64] the width is 2^64 - 1. *)
Theorem distance_width_exact (val : Z) (paramName : string) (r : types.Int64Range) :
  int64_range r →
  Left r ≤ Right r →
  let dist := big_Sub (big_NewInt (Right r)) (big_NewInt (Left r)) in
  dist = Right r - Left r
  ∧ is_uint64 dist
  ∧ big_Uint64 dist = Right r - Left r
  ∧ MinDistance_code val paramName r
    = (val, r,
       if Right r - Left r <? opens r
       then Some (NewError ErrorInvalidParam [paramName; "WrongRange"])
       else if Right r - Left r - opens r <? val
       then Some (NewError ErrorInvalidParam [paramName; "TooNear"])
       else None)
  ∧ MaxDistance_code val paramName r
    = (val, r,
       if Right r - Left r <? opens r
       then Some (NewError ErrorInvalidParam [paramName; "WrongRange"])
       else if Right r - Left r - opens r >? val
       then Some (NewError ErrorInvalidParam [paramName; "TooFar"])
       else None)
  ∧ (Left r = MinInt64 → Right r = MaxInt64 → big_Uint64 dist = 2 ^ 64 - 1).
Proof.
  intros Hr Hle dist. subst dist.
  pose proof (int64_width_bounds r Hr) as Hb.
  assert (Hfit : is_uint64 (Right r - Left r)) by (unfold_int64; lia).
  assert (Hu : big_Uint64 (Right r - Left r) = Right r - Left r)
    by (apply big_Uint64_nonneg; lia).
  rewrite MinDistance_stages, MaxDistance_stages.
  unfold big_Sub, big_NewInt. rewrite !big_stages_outcome by done.
  split_and!; [done | done | done | | | ].
  - unfold too_near. by case_cmp.
  - unfold too_far. by case_cmp.
  - intros Hl Hrg. rewrite Hu, Hl, Hrg. reflexivity.
Qed.

Lemma distance_width_exact_witness :
  let r := mkRange MinInt64 MaxInt64 true true in
  int64_range r
  ∧ Left r ≤ Right r
  ∧ big_Uint64 (big_Sub (big_NewInt (Right r)) (big_NewInt (Left r))) = 2 ^ 64 - 1
  ∧ MinDistance_code MaxUint64 "x" r = (MaxUint64, r, None).
Proof.
  pose proof (distance_width_exact MaxUint64 "x"
                (mkRange MinInt64 MaxInt64 true true)) as H.
  assert (Hr : int64_range (mkRange MinInt64 MaxInt64 true true))
    by (unfold_int64; cbn; lia).
  assert (Hle : Left (mkRange MinInt64 MaxInt64 true true)
                ≤ Right (mkRange MinInt64 MaxInt64 true true))
    by (cbn; unfold_int64; lia).
  destruct (H Hr Hle) as (_ & _ & _ & Hmin & _ & Hwidth).
  split_and!; [exact Hr | exact Hle | by apply Hwidth | exact Hmin].
Defined.







(** ** Properties of Run *)

Section RunProperties.

Variable ParseInt64Range : string → Z → Z → option types.Int64Range.

Lemma run_validators_pass paramName r vs vs' r' :
  chain_passes paramName r vs vs' r' →
  run_validators paramName r vs = (vs', r', None).
Proof.
  induction 1 as [r | r v vs v' r' vs' r'' Hcall _ IH]; [reflexivity|].
  cbn [run_validators]. by rewrite Hcall, IH.
Qed.

Lemma run_validators_fail paramName r pre pre' r1 v v' r2 e post :
  chain_passes paramName r pre pre' r1 →
  call v paramName r1 = (v', r2, Some e) →
  run_validators paramName r (pre ++ v :: post) = (pre' ++ v' :: post, r2, Some e).
Proof.
  intros Hpre Hcall.
  induction Hpre as [r | r w ws w' r' ws' r'' Hw _ IH]; cbn [app run_validators].
  - by rewrite Hcall.
  - by rewrite Hw, IH.
Qed.

Lemma run_validators_inv paramName r vs vs' r' :
  run_validators paramName r vs = (vs', r', None) →
  chain_passes paramName r vs vs' r'.
Proof.
  revert r vs' r'. induction vs as [|v vs IH]; intros r vs' r'; cbn [run_validators].
  - intros [= <- <-]. constructor.
  - destruct (call v paramName r) as [[v1 r1] [e|]] eqn:Hcall; [done|].
    destruct (run_validators paramName r1 vs) as [[vs1 r2] err] eqn:Hrest.
    intros [= <- <- ->]. econstructor; [exact Hcall | by apply IH].
Qed.

Lemma Run_coerced f paramName paramValue r0 :
  coerce ParseInt64Range f paramValue = Coerced r0 →
  Run ParseInt64Range f paramName paramValue =
    let '(vs, r, err) := run_validators paramName r0 (validators f) in
    match err with
    | Some e => (with_validators f vs, (Nil, Some e))
    | None => (with_validators f vs, (RangePtr r, None))
    end.
Proof.
  intros Hc. unfold Run. rewrite Hc.
  destruct paramValue; [done| | | |]; by destruct (run_validators _ _ _) as [[? ?] [?|]].
Qed.

Lemma Run_never_value_and_error f paramName paramValue :
  ¬ value_and_error (Run ParseInt64Range f paramName paramValue).2.
Proof.
  unfold value_and_error, Run.
  destruct paramValue; [cbn; tauto| | | |];
    (destruct (coerce ParseInt64Range f _);
     [cbn; tauto | cbn; tauto |
      destruct (run_validators _ _ _) as [[? ?] [?|]]; cbn; tauto]).
Qed.

(** C9. [Run] on a nil parameter value returns a nil value and a nil error,
    whatever the allow-list, the defaults and the validators of the filter,
    and leaves the filter as it is. *)
Theorem Run_nil (f : Int64RangeFilter) (paramName : string) :
  Run ParseInt64Range f paramName Nil = (f, (Nil, None)).
Proof. reflexivity. Qed.

(** C7. When the string, trimmed of the characters space, tab, carriage
    return and line feed, is one of the allow-listed strings, [Run] returns
    the trimmed string and a nil error. This holds for every parser, in
    particular for one that rejects the string, and the filter comes back
    with the closures of its validators untouched: the string is neither
    parsed nor validated. *)
Theorem Run_allowed (f : Int64RangeFilter) (paramName s : string) :
  Trim s run_cutset ∈ allowVals f →
  Run ParseInt64Range f paramName (Str s) = (f, (Str (Trim s run_cutset), None)).
Proof.
  intros Hin%allowed_elem_of. unfold Run, coerce.
  by rewrite Hin.
Qed.

(** C8. For a parameter value that coerces to the range [r0]: when the
    validators before [v] pass one after the other and [v] fails with [e],
    [Run] returns a nil value and [e], and the validators after [v] are the
    closures they were, not called; when all validators pass, [Run] returns
    the range and a nil error; a nil error is returned only then; and no
    result of [Run] holds a value together with an error. *)
Theorem Run_validator_chain (f : Int64RangeFilter) (paramName : string)
    (paramValue : interface) (r0 : types.Int64Range) :
  coerce ParseInt64Range f paramValue = Coerced r0 →
  (∀ pre v post pre' r1 v' r2 e,
     validators f = pre ++ v :: post →
     chain_passes paramName r0 pre pre' r1 →
     call v paramName r1 = (v', r2, Some e) →
     Run ParseInt64Range f paramName paramValue
       = (with_validators f (pre' ++ v' :: post), (Nil, Some e)))
  ∧ (∀ vs' r',
       chain_passes paramName r0 (validators f) vs' r' →
       Run ParseInt64Range f paramName paramValue
         = (with_validators f vs', (RangePtr r', None)))
  ∧ (∀ f' val,
       Run ParseInt64Range f paramName paramValue = (f', (val, None)) →
       ∃ r', val = RangePtr r'
             ∧ chain_passes paramName r0 (validators f) (validators f') r')
  ∧ ¬ value_and_error (Run ParseInt64Range f paramName paramValue).2.
Proof.
  intros Hc. rewrite (Run_coerced _ _ _ _ Hc). split_and!.
  - intros pre v post pre' r1 v' r2 e Hvs Hpre Hcall.
    by rewrite Hvs, (run_validators_fail _ _ _ _ _ _ _ _ _ _ Hpre Hcall).
  - intros vs' r' Hpass. by rewrite (run_validators_pass _ _ _ _ _ Hpass).
  - intros f' val.
    destruct (run_validators paramName r0 (validators f)) as [[vs r] [e|]] eqn:Hrun;
      [done|].
    intros [= <- <-]. exists r. split; [done|]. by apply run_validators_inv.
  - rewrite <- (Run_coerced _ _ _ _ Hc). apply Run_never_value_and_error.
Qed.

End RunProperties.

Lemma Run_allowed_witness :
  let f := Allow ["any"] (LeftMin 5 Int64Range) in
  Trim " any " run_cutset ∈ allowVals f
  ∧ Run (λ _ _ _, None) f "x" (Str " any ") = (f, (Str "any", None)).
Proof.
  assert (Hin : Trim " any " run_cutset
                ∈ allowVals (Allow ["any"] (LeftMin 5 Int64Range)))
    by (apply allowed_elem_of; reflexivity).
  split; [exact Hin|].
  exact (Run_allowed (λ _ _ _, None) (Allow ["any"] (LeftMin 5 Int64Range))
           "x" " any " Hin).
Defined.

Lemma Run_validator_chain_witness :
  let f := MinDistance 3 (RightMax 100 (LeftMin 5 Int64Range)) in
  let r := mkRange 6 200 true true in
  coerce (λ _ _ _, None) f (RangeVal r) = Coerced r
  ∧ Run (λ _ _ _, None) f "x" (RangeVal r)
    = (f, (Nil, Some (NewError ErrorInvalidParam ["x"; "RightTooLarge"]))).
Proof.
  split; [reflexivity|].
  destruct (Run_validator_chain (λ _ _ _, None)
              (MinDistance 3 (RightMax 100 (LeftMin 5 Int64Range))) "x"
              (RangeVal (mkRange 6 200 true true)) (mkRange 6 200 true true)
              eq_refl) as [Hfail _].
  apply (Hfail [mkValidator Z 5 LeftMin_code] (mkValidator Z 100 RightMax_code)
           [mkValidator Z 3 MinDistance_code]
           [mkValidator Z 5 LeftMin_code] (mkRange 6 200 true true)
           (mkValidator Z 100 RightMax_code) (mkRange 6 200 true true)).
  - reflexivity.
  - econstructor; [reflexivity | constructor].
  - reflexivity.
Defined.


(** * Further properties of the range filters *)

(** ** A boundary validator and the integers of the range *)

Ltac case_cmp_all :=
  rewrite ?Z.gtb_ltb, ?Z.geb_leb;
  repeat match goal with
         | |- context [?a <? ?b] => destruct (Z.ltb_spec a b)
         | |- context [?a <=? ?b] => destruct (Z.leb_spec a b)
         end.

(** The adjustment of a left threshold is a decrement that stops at
    [MinInt64], that of a right threshold an increment that stops at
    [MaxInt64]; neither wraps. *)
Lemma left_adjust_saturates (val : Z) :
  is_int64 val →
  (if val >? MinInt64 then wrap_int64 (val - 1) else val) = Z.max MinInt64 (val - 1).
Proof.
  intros Hval. destruct (Z.gtb_spec val MinInt64).
  - rewrite wrap_int64_id by (unfold_int64; lia). lia.
  - unfold_int64; lia.
Qed.

Lemma right_adjust_saturates (val : Z) :
  is_int64 val →
  (if val <? MaxInt64 then wrap_int64 (val + 1) else val) = Z.min MaxInt64 (val + 1).
Proof.
  intros Hval. destruct (Z.ltb_spec val MaxInt64).
  - rewrite wrap_int64_id by (unfold_int64; lia). lia.
  - unfold_int64; lia.
Qed.

(** Unfold a boundary validator on a range whose flag is known, with the
    adjustment in its saturating form. *)
Ltac bound_cases r Hval :=
  unfold LeftMin_code, LeftMax_code, LeftLargerThan_code, LeftSmallerThan_code,
    LeftEqual_code, RightMin_code, RightMax_code, RightLargerThan_code,
    RightSmallerThan_code, RightEqual_code, first_elem, last_elem;
  rewrite ?(left_adjust_saturates _ Hval), ?(right_adjust_saturates _ Hval);
  destruct (LeftClosed r), (RightClosed r); cbn [negb];
  case_cmp_all; cbn [snd]; split_and?;
  try (split; [done | intros; unfold_int64; lia]);
  try (split; [intros; unfold_int64; lia | done]);
  try (split; intros; first [done | unfold_int64; lia]).

(** X1. On a closure whose captured threshold is [val], [LeftMin] passes
    exactly when the smallest integer of the range is at least [val], and
    [LeftSmallerThan] exactly when it is below [val]; this holds for every
    int64 threshold, the saturated one included. *)
Theorem LeftMin_LeftSmallerThan_first_elem (val : Z) (paramName : string)
    (r : types.Int64Range) :
  is_int64 val →
  int64_range r →
  ((LeftMin_code val paramName r).2 = None ↔ val ≤ first_elem r)
  ∧ ((LeftSmallerThan_code val paramName r).2 = None ↔ first_elem r < val).
Proof. intros Hval [Hl Hr]. bound_cases r Hval. Qed.

Lemma LeftMin_LeftSmallerThan_first_elem_witness :
  let r := mkRange 4 10 false true in
  is_int64 5 ∧ int64_range r
  ∧ ((LeftMin_code 5 "x" r).2 = None ↔ 5 ≤ first_elem r).
Proof.
  assert (Hval : is_int64 5) by (unfold_int64; lia).
  assert (Hr : int64_range (mkRange 4 10 false true)) by (unfold_int64; cbn; lia).
  split_and!; [exact Hval | exact Hr |].
  exact (proj1 (LeftMin_LeftSmallerThan_first_elem 5 "x" _ Hval Hr)).
Defined.

(** X2. For a threshold [val] above [MinInt64], [LeftMax] passes exactly
    when the smallest integer of the range is at most [val],
    [LeftLargerThan] exactly when it is above [val], and [LeftEqual] exactly
    when it is [val]. *)
Theorem LeftMax_LeftLargerThan_LeftEqual_first_elem (val : Z) (paramName : string)
    (r : types.Int64Range) :
  is_int64 val →
  MinInt64 < val →
  int64_range r →
  ((LeftMax_code val paramName r).2 = None ↔ first_elem r ≤ val)
  ∧ ((LeftLargerThan_code val paramName r).2 = None ↔ val < first_elem r)
  ∧ ((LeftEqual_code val paramName r).2 = None ↔ first_elem r = val).
Proof. intros Hval Hgt [Hl Hr]. bound_cases r Hval. Qed.

Lemma LeftMax_LeftLargerThan_LeftEqual_first_elem_witness :
  let r := mkRange 4 10 false true in
  is_int64 5 ∧ MinInt64 < 5 ∧ int64_range r
  ∧ ((LeftEqual_code 5 "x" r).2 = None ↔ first_elem r = 5).
Proof.
  assert (Hval : is_int64 5) by (unfold_int64; lia).
  assert (Hgt : MinInt64 < 5) by (unfold_int64; lia).
  assert (Hr : int64_range (mkRange 4 10 false true)) by (unfold_int64; cbn; lia).
  split_and!; [exact Hval | exact Hgt | exact Hr |].
  exact (proj2 (proj2
    (LeftMax_LeftLargerThan_LeftEqual_first_elem 5 "x" _ Hval Hgt Hr))).
Defined.

(** X3. At the threshold [MinInt64] the adjustment for a left-open range
    is skipped, and the validators compare [Left] itself: on a left-open
    range, whose smallest integer is above [MinInt64], [LeftMax(MinInt64)]
    and [LeftEqual(MinInt64)] pass exactly when [Left] is [MinInt64], and
    [LeftLargerThan(MinInt64)] fails exactly then. *)
Theorem left_threshold_saturated (paramName : string) (r : types.Int64Range) :
  int64_range r →
  LeftClosed r = false →
  MinInt64 < first_elem r
  ∧ ((LeftMax_code MinInt64 paramName r).2 = None ↔ Left r = MinInt64)
  ∧ ((LeftEqual_code MinInt64 paramName r).2 = None ↔ Left r = MinInt64)
  ∧ ((LeftLargerThan_code MinInt64 paramName r).2 = None ↔ Left r ≠ MinInt64).
Proof.
  intros [Hl Hr] Hopen.
  unfold LeftMax_code, LeftEqual_code, LeftLargerThan_code, first_elem.
  rewrite Hopen. cbn [negb]. rewrite !Z.gtb_ltb, !Z.ltb_irrefl.
  case_cmp_all; cbn [snd]; split_and!;
    first [ unfold_int64; lia | split; intros; first [done | unfold_int64; lia] ].
Qed.

Lemma left_threshold_saturated_witness :
  let r := mkRange MinInt64 0 false true in
  int64_range r ∧ LeftClosed r = false
  ∧ MinInt64 < first_elem r
  ∧ (LeftMax_code MinInt64 "x" r).2 = None.
Proof.
  assert (Hr : int64_range (mkRange MinInt64 0 false true))
    by (unfold_int64; cbn; lia).
  destruct (left_threshold_saturated "x" _ Hr eq_refl) as (Hfirst & Hmax & _).
  split_and!; [exact Hr | reflexivity | exact Hfirst | by apply Hmax].
Defined.

(** X4. On a closure whose captured threshold is [val], [RightMax] passes
    exactly when the largest integer of the range is at most [val], and
    [RightLargerThan] exactly when it is above [val]; this holds for every
    int64 threshold. *)
Theorem RightMax_RightLargerThan_last_elem (val : Z) (paramName : string)
    (r : types.Int64Range) :
  is_int64 val →
  int64_range r →
  ((RightMax_code val paramName r).2 = None ↔ last_elem r ≤ val)
  ∧ ((RightLargerThan_code val paramName r).2 = None ↔ val < last_elem r).
Proof. intros Hval [Hl Hr]. bound_cases r Hval. Qed.

Lemma RightMax_RightLargerThan_last_elem_witness :
  let r := mkRange 4 10 true false in
  is_int64 9 ∧ int64_range r
  ∧ ((RightMax_code 9 "x" r).2 = None ↔ last_elem r ≤ 9).
Proof.
  assert (Hval : is_int64 9) by (unfold_int64; lia).
  assert (Hr : int64_range (mkRange 4 10 true false)) by (unfold_int64; cbn; lia).
  split_and!; [exact Hval | exact Hr |].
  exact (proj1 (RightMax_RightLargerThan_last_elem 9 "x" _ Hval Hr)).
Defined.

(** X5. For a threshold [val] below [MaxInt64], [RightMin] passes exactly
    when the largest integer of the range is at least [val],
    [RightSmallerThan] exactly when it is below [val], and [RightEqual]
    exactly when it is [val]. *)
Theorem RightMin_RightSmallerThan_RightEqual_last_elem (val : Z)
    (paramName : string) (r : types.Int64Range) :
  is_int64 val →
  val < MaxInt64 →
  int64_range r →
  ((RightMin_code val paramName r).2 = None ↔ val ≤ last_elem r)
  ∧ ((RightSmallerThan_code val paramName r).2 = None ↔ last_elem r < val)
  ∧ ((RightEqual_code val paramName r).2 = None ↔ last_elem r = val).
Proof. intros Hval Hlt [Hl Hr]. bound_cases r Hval. Qed.

Lemma RightMin_RightSmallerThan_RightEqual_last_elem_witness :
  let r := mkRange 4 10 true false in
  is_int64 9 ∧ 9 < MaxInt64 ∧ int64_range r
  ∧ ((RightEqual_code 9 "x" r).2 = None ↔ last_elem r = 9).
Proof.
  assert (Hval : is_int64 9) by (unfold_int64; lia).
  assert (Hlt : 9 < MaxInt64) by (unfold_int64; lia).
  assert (Hr : int64_range (mkRange 4 10 true false)) by (unfold_int64; cbn; lia).
  split_and!; [exact Hval | exact Hlt | exact Hr |].
  exact (proj2 (proj2
    (RightMin_RightSmallerThan_RightEqual_last_elem 9 "x" _ Hval Hlt Hr))).
Defined.

(** X6. At the threshold [MaxInt64] the adjustment for a right-open range
    is skipped: on a right-open range, whose largest integer is below
    [MaxInt64], [RightMin(MaxInt64)] and [RightEqual(MaxInt64)] pass exactly
    when [Right] is [MaxInt64], and [RightSmallerThan(MaxInt64)] fails
    exactly then. *)
Theorem right_threshold_saturated (paramName : string) (r : types.Int64Range) :
  int64_range r →
  RightClosed r = false →
  last_elem r < MaxInt64
  ∧ ((RightMin_code MaxInt64 paramName r).2 = None ↔ Right r = MaxInt64)
  ∧ ((RightEqual_code MaxInt64 paramName r).2 = None ↔ Right r = MaxInt64)
  ∧ ((RightSmallerThan_code MaxInt64 paramName r).2 = None ↔ Right r ≠ MaxInt64).
Proof.
  intros [Hl Hr] Hopen.
  unfold RightMin_code, RightEqual_code, RightSmallerThan_code, last_elem.
  rewrite Hopen. cbn [negb]. rewrite !Z.ltb_irrefl.
  case_cmp_all; cbn [snd]; split_and!;
    first [ unfold_int64; lia | split; intros; first [done | unfold_int64; lia] ].
Qed.

Lemma right_threshold_saturated_witness :
  let r := mkRange 0 MaxInt64 true false in
  int64_range r ∧ RightClosed r = false
  ∧ last_elem r < MaxInt64
  ∧ (RightMin_code MaxInt64 "x" r).2 = None.
Proof.
  assert (Hr : int64_range (mkRange 0 MaxInt64 true false))
    by (unfold_int64; cbn; lia).
  destruct (right_threshold_saturated "x" _ Hr eq_refl) as (Hlast & Hmin & _).
  split_and!; [exact Hr | reflexivity | exact Hlast | by apply Hmin].
Defined.

(** X7. [LeftBetween(min, max)] returns what [LeftMin(min)] returns when
    that is an error and what [LeftMax(max)] returns otherwise, and
    [LeftEqual(val)] returns what [LeftBetween(val, val)] returns; the same
    holds on the right side. The lower bound is tested first. *)
Theorem Between_is_Min_then_Max (min max val : Z) (paramName : string)
    (r : types.Int64Range) :
  (LeftBetween_code (min, max) paramName r).2
    = match (LeftMin_code min paramName r).2 with
      | Some e => Some e
      | None => (LeftMax_code max paramName r).2
      end
  ∧ (LeftEqual_code val paramName r).2 = (LeftBetween_code (val, val) paramName r).2
  ∧ (RightBetween_code (min, max) paramName r).2
    = match (RightMin_code min paramName r).2 with
      | Some e => Some e
      | None => (RightMax_code max paramName r).2
      end
  ∧ (RightEqual_code val paramName r).2
    = (RightBetween_code (val, val) paramName r).2.
Proof.
  unfold LeftBetween_code, LeftMin_code, LeftMax_code, LeftEqual_code,
    RightBetween_code, RightMin_code, RightMax_code, RightEqual_code.
  split_and!;
    repeat match goal with
           | |- context [if ?b then _ else _] => destruct b; cbn [snd]
           end; done.
Qed.

(** ** Drift of a captured threshold *)

Lemma LeftMin_calls_open (paramName : string) (rs : list types.Int64Range) :
  ∀ val, is_int64 val →
  Forall (λ r, LeftClosed r = false) rs →
  (calls (mkValidator Z val LeftMin_code) paramName rs).1
  = mkValidator Z (Z.max MinInt64 (val - Z.of_nat (length rs))) LeftMin_code.
Proof.
  induction rs as [|r rs IH]; intros val Hval Hopen; cbn [calls length].
  - cbn [Z.of_nat]. rewrite Z.sub_0_r, Z.max_r by (unfold_int64; lia). reflexivity.
  - apply Forall_cons in Hopen as [Hr Hrs].
    destruct (LeftMin_code_spec val paramName r Hval) as [Hth Hcode].
    rewrite Hr in Hth, Hcode. unfold call. cbn [code env]. rewrite Hcode.
    unfold with_env. cbn [captured code].
    specialize (IH _ Hth Hrs).
    destruct (calls _ paramName rs) as [v2 errs]. cbn [fst] in *. rewrite IH.
    f_equal. unfold_int64. lia.
Qed.

Lemma RightMax_code_spec (val : Z) (paramName : string) (r : types.Int64Range) :
  is_int64 val →
  let threshold := if RightClosed r then val else Z.min MaxInt64 (val + 1) in
  is_int64 threshold
  ∧ RightMax_code val paramName r =
      (threshold, r,
       if Right r >? threshold
       then Some (NewError ErrorInvalidParam [paramName; "RightTooLarge"])
       else None).
Proof.
  intros Hval. unfold RightMax_code.
  rewrite (right_adjust_saturates _ Hval).
  destruct (RightClosed r); cbn [negb].
  - split; [done|]. by destruct (Z.gtb_spec (Right r) val).
  - split; [unfold_int64; lia|].
    by destruct (Z.gtb_spec (Right r) (Z.min MaxInt64 (val + 1))).
Qed.

Lemma RightMax_calls_open (paramName : string) (rs : list types.Int64Range) :
  ∀ val, is_int64 val →
  Forall (λ r, RightClosed r = false) rs →
  (calls (mkValidator Z val RightMax_code) paramName rs).1
  = mkValidator Z (Z.min MaxInt64 (val + Z.of_nat (length rs))) RightMax_code.
Proof.
  induction rs as [|r rs IH]; intros val Hval Hopen; cbn [calls length].
  - cbn [Z.of_nat]. rewrite Z.add_0_r, Z.min_r by (unfold_int64; lia). reflexivity.
  - apply Forall_cons in Hopen as [Hr Hrs].
    destruct (RightMax_code_spec val paramName r Hval) as [Hth Hcode].
    rewrite Hr in Hth, Hcode. unfold call. cbn [code env]. rewrite Hcode.
    unfold with_env. cbn [captured code].
    specialize (IH _ Hth Hrs).
    destruct (calls _ paramName rs) as [v2 errs]. cbn [fst] in *. rewrite IH.
    f_equal. unfold_int64. lia.
Qed.

(** X8. Every call on an open range moves the captured threshold of a
    boundary validator by one: after calls on [n] left-open ranges the
    closure of [LeftMin(val)] holds [val - n], not below [MinInt64], and
    after calls on [n] right-open ranges the closure of [RightMax(val)]
    holds [val + n], not above [MaxInt64]. Once [n] reaches
    [val - MinInt64] the closure of [LeftMin] passes every int64 range. *)
Theorem threshold_drift (val : Z) (paramName : string)
    (rs : list types.Int64Range) :
  is_int64 val →
  (Forall (λ r, LeftClosed r = false) rs →
   (calls (mkValidator Z val LeftMin_code) paramName rs).1
   = mkValidator Z (Z.max MinInt64 (val - Z.of_nat (length rs))) LeftMin_code)
  ∧ (Forall (λ r, RightClosed r = false) rs →
     (calls (mkValidator Z val RightMax_code) paramName rs).1
     = mkValidator Z (Z.min MaxInt64 (val + Z.of_nat (length rs))) RightMax_code)
  ∧ (Forall (λ r, LeftClosed r = false) rs →
     val - MinInt64 ≤ Z.of_nat (length rs) →
     ∀ r, int64_range r →
       (call (calls (mkValidator Z val LeftMin_code) paramName rs).1 paramName r).2
       = None).
Proof.
  intros Hval. split_and!.
  - by apply LeftMin_calls_open.
  - by apply RightMax_calls_open.
  - intros Hopen Hn r [Hl _]. rewrite LeftMin_calls_open by done.
    rewrite Z.max_l by lia. unfold call. cbn [code env].
    assert (Hmin : is_int64 MinInt64) by (unfold_int64; lia).
    destruct (LeftMin_code_spec MinInt64 paramName r Hmin) as [_ ->].
    cbn [snd]. case_cmp_all; [|done].
    destruct (LeftClosed r); unfold_int64; lia.
Qed.

Lemma threshold_drift_witness :
  let open := mkRange 0 10 false true in
  is_int64 5
  ∧ (calls (mkValidator Z 5 LeftMin_code) "x" [open; open; open]).1
    = mkValidator Z 2 LeftMin_code.
Proof.
  assert (Hval : is_int64 5) by (unfold_int64; lia).
  split; [exact Hval|].
  apply (proj1 (threshold_drift 5 "x"
                  [mkRange 0 10 false true; mkRange 0 10 false true;
                   mkRange 0 10 false true] Hval)).
  repeat constructor.
Defined.

(** ** What the registered validators do to the filter and to the range *)

Lemma returned_reason (paramName : string) (m : Error + unit) (e : Error)
    (reasons : list string) :
  (∀ e', m = inl e' → param_error paramName reasons e') →
  returned m = Some e → param_error paramName reasons e.
Proof. destruct m as [e'|[]]; [|done]. intros H [= <-]. by apply H. Qed.

Lemma param_error_intro (paramName reason : string) (reasons : list string) :
  reason ∈ reasons →
  param_error paramName reasons (NewError ErrorInvalidParam [paramName; reason]).
Proof. intros Hin. split; [done|]. by exists reason. Qed.

Ltac reason_in :=
  apply param_error_intro; unfold range_reasons;
  repeat first [apply list_elem_of_here | apply list_elem_of_further].

(** The distance validators leave their captured variable and the range as
    they are, and their errors carry the reason codes of the filter. *)
Lemma distance_call (paramName : string) (r : types.Int64Range) (val : Z) :
  (∃ err, MinDistance_code val paramName r = (val, r, err)
          ∧ ∀ e, err = Some e → param_error paramName range_reasons e)
  ∧ (∃ err, MaxDistance_code val paramName r = (val, r, err)
            ∧ ∀ e, err = Some e → param_error paramName range_reasons e).
Proof.
  split; eexists; (split; [reflexivity|]); intros e;
    unfold big_Sub, big_NewInt;
    destruct (LeftClosed r), (RightClosed r); cbn [negb mbind early_bind mret early_ret];
    repeat match goal with
           | |- context [if ?b then _ else _] =>
               destruct b; cbn [mbind early_bind mret early_ret returned]
           end;
    intros [= <-]; reason_in.
Qed.

Ltac boundary_call r :=
  unfold well_behaved, both_closed;
  destruct (LeftClosed r), (RightClosed r); cbn [negb];
  repeat match goal with
         | |- context [if ?b then _ else _] => destruct b
         end;
  (eexists _, _; split_and!;
   [ reflexivity
   | intros [??]; first [done | reflexivity]
   | intros e [=]; subst; first [done | reason_in] ]).

Lemma left_boundary_calls (paramName : string) (r : types.Int64Range)
    (val min max : Z) :
  well_behaved LeftMin_code val paramName r
  ∧ well_behaved LeftMax_code val paramName r
  ∧ well_behaved LeftLargerThan_code val paramName r
  ∧ well_behaved LeftSmallerThan_code val paramName r
  ∧ well_behaved LeftEqual_code val paramName r
  ∧ well_behaved LeftBetween_code (min, max) paramName r.
Proof.
  split_and!;
    unfold LeftMin_code, LeftMax_code, LeftLargerThan_code,
      LeftSmallerThan_code, LeftEqual_code, LeftBetween_code;
    boundary_call r.
Qed.

Lemma right_boundary_calls (paramName : string) (r : types.Int64Range)
    (val min max : Z) :
  well_behaved RightMin_code val paramName r
  ∧ well_behaved RightMax_code val paramName r
  ∧ well_behaved RightLargerThan_code val paramName r
  ∧ well_behaved RightSmallerThan_code val paramName r
  ∧ well_behaved RightEqual_code val paramName r
  ∧ well_behaved RightBetween_code (min, max) paramName r.
Proof.
  split_and!;
    unfold RightMin_code, RightMax_code, RightLargerThan_code,
      RightSmallerThan_code, RightEqual_code, RightBetween_code;
    boundary_call r.
Qed.

Lemma distance_calls (paramName : string) (r : types.Int64Range) (val : Z) :
  well_behaved MinDistance_code val paramName r
  ∧ well_behaved MaxDistance_code val paramName r.
Proof.
  destruct (distance_call paramName r val) as [(e1 & H1 & He1) (e2 & H2 & He2)].
  split; eexists _, _; eauto.
Qed.

(** One call of a registered validator: the range is left as it is, the
    closure stays a registered validator, on a range with both sides closed
    it stays the very same closure, and an error is an invalid-param error
    of the parameter with one of the reason codes of the filter. *)
Lemma builtin_call (v : Int64RangeValidator) (paramName : string)
    (r : types.Int64Range) :
  builtin v →
  ∃ v' err,
    call v paramName r = (v', r, err)
    ∧ builtin v'
    ∧ (both_closed r → v' = v)
    ∧ (∀ e, err = Some e → param_error paramName range_reasons e).
Proof.
  intros Hv.
  destruct Hv as [val|val|val|val|val|[mn mx]|val|val|val|val|val|[mn mx]|val|val];
    match goal with
    | |- context [mkValidator _ ?e ?body] =>
        assert (Hwb : well_behaved body e paramName r)
          by first
               [ apply (left_boundary_calls paramName r val 0 0)
               | apply (left_boundary_calls paramName r 0 mn mx)
               | apply (right_boundary_calls paramName r val 0 0)
               | apply (right_boundary_calls paramName r 0 mn mx)
               | apply (distance_calls paramName r val) ]
    end;
    destruct Hwb as (env' & err & Hcode & Hsame & Herr);
    unfold call; cbn [code env]; rewrite Hcode;
    (eexists _, err; split_and!;
     [ reflexivity | constructor | intros Hc; by rewrite (Hsame Hc) | done ]).
Qed.

Lemma builtin_run_validators (paramName : string) (vs : list Int64RangeValidator) :
  ∀ r, Forall builtin vs →
  ∃ vs' err,
    run_validators paramName r vs = (vs', r, err)
    ∧ Forall builtin vs'
    ∧ (both_closed r → vs' = vs)
    ∧ (∀ e, err = Some e → param_error paramName range_reasons e).
Proof.
  induction vs as [|v vs IH]; intros r Hvs; cbn [run_validators].
  - by exists [], None.
  - apply Forall_cons in Hvs as [Hv Hvs].
    destruct (builtin_call v paramName r Hv) as (v' & err & -> & Hv' & Hsame & Herr).
    destruct err as [e|].
    + exists (v' :: vs), (Some e). split_and!; [done | by constructor | | done].
      intros Hc. by rewrite Hsame.
    + destruct (IH r Hvs) as (vs' & err' & -> & Hvs' & Hsame' & Herr').
      exists (v' :: vs'), err'. split_and!; [done | by constructor | | done].
      intros Hc. by rewrite Hsame, Hsame'.
Qed.

Lemma with_validators_same (f : Int64RangeFilter) :
  with_validators f (validators f) = f.
Proof. by destruct f. Qed.

Section BuiltinFilters.

Variable ParseInt64Range : string → Z → Z → option types.Int64Range.

(** X9. A filter whose validators are the registered ones gives the same
    answer for a range with both sides closed however often it is asked:
    [Run] on such a range returns the filter as it was. *)
Theorem Run_closed_range_keeps_filter (f : Int64RangeFilter) (paramName : string)
    (paramValue : interface) (r : types.Int64Range) :
  Forall builtin (validators f) →
  coerce ParseInt64Range f paramValue = Coerced r →
  both_closed r →
  (Run ParseInt64Range f paramName paramValue).1 = f
  ∧ (Run_all ParseInt64Range f
       [(paramName, paramValue); (paramName, paramValue)]).2
    = [(Run ParseInt64Range f paramName paramValue).2;
       (Run ParseInt64Range f paramName paramValue).2].
Proof.
  intros Hvs Hc Hclosed.
  assert (Hf : (Run ParseInt64Range f paramName paramValue).1 = f).
  { rewrite (Run_coerced _ _ _ _ _ Hc).
    destruct (builtin_run_validators paramName (validators f) r Hvs)
      as (vs' & err & -> & _ & Hsame & _).
    rewrite (Hsame Hclosed), with_validators_same. by destruct err. }
  split; [exact Hf|].
  cbn [Run_all].
  destruct (Run ParseInt64Range f paramName paramValue) as [f1 res] eqn:Hrun.
  cbn [fst] in Hf. subst f1. rewrite Hrun. reflexivity.
Qed.


End BuiltinFilters.

Lemma Run_closed_range_keeps_filter_witness :
  let f := MinDistance 3 (RightMax 100 (LeftMin 5 Int64Range)) in
  let r := mkRange 6 200 true true in
  Forall builtin (validators f)
  ∧ coerce (λ _ _ _, None) f (RangeVal r) = Coerced r
  ∧ both_closed r
  ∧ (Run (λ _ _ _, None) f "x" (RangeVal r)).1 = f.
Proof.
  assert (Hvs : Forall builtin
            (validators (MinDistance 3 (RightMax 100 (LeftMin 5 Int64Range)))))
    by (repeat constructor).
  assert (Hclosed : both_closed (mkRange 6 200 true true)) by (by split).
  split_and!; [exact Hvs | reflexivity | exact Hclosed |].
  exact (proj1 (Run_closed_range_keeps_filter (λ _ _ _, None) _ "x"
                  (RangeVal (mkRange 6 200 true true)) _ Hvs eq_refl Hclosed)).
Defined.


(** ** The distance validators and the integers of the range *)

Ltac distance_stages :=
  rewrite ?MinDistance_stages, ?MaxDistance_stages,
    ?Uint64_MinDistance_stages, ?Uint64_MaxDistance_stages in *;
  cbn [snd] in *;
  repeat match goal with
         | H : context [mbind _ ?m] |- _ =>
             let e := fresh "e" in
             let d := fresh "d" in
             destruct m as [e|d]; cbn [mbind early_bind returned] in *;
             [done|]
         end;
  unfold too_near, too_far in *.

(** X11. The distance validators are monotone in the configured distance:
    a range that passes [MinDistance(b)] passes [MinDistance(a)] for every
    smaller [a], and a range that passes [MaxDistance(a)] passes
    [MaxDistance(b)] for every larger [b], in the int64 and in the uint64
    domain. *)
Theorem distance_monotone (a b : Z) (paramName : string) (r : types.Range) :
  a ≤ b →
  ((MinDistance_code b paramName r).2 = None →
   (MinDistance_code a paramName r).2 = None)
  ∧ ((MaxDistance_code a paramName r).2 = None →
     (MaxDistance_code b paramName r).2 = None)
  ∧ ((Uint64.MinDistance_code b paramName r).2 = None →
     (Uint64.MinDistance_code a paramName r).2 = None)
  ∧ ((Uint64.MaxDistance_code a paramName r).2 = None →
     (Uint64.MaxDistance_code b paramName r).2 = None).
Proof.
  intros Hab. split_and!; intros Hpass; distance_stages;
    revert Hpass; case_cmp; cbn [returned]; first [done | lia].
Qed.

Lemma distance_monotone_witness :
  let r := mkRange 0 10 true true in
  3 ≤ 7 ∧ (MinDistance_code 3 "x" r).2 = None.
Proof.
  assert (H : 3 ≤ 7) by lia.
  split; [exact H|].
  by apply (proj1 (distance_monotone 3 7 "x" (mkRange 0 10 true true) H)).
Defined.

(** X12. A range that passes both [MinDistance(a)] and [MaxDistance(b)]
    shows that [a] is at most [b]: with [a] above [b] the two validators
    together reject every range. *)
Theorem MinDistance_MaxDistance_compatible (a b : Z) (paramName : string)
    (r : types.Range) :
  ((MinDistance_code a paramName r).2 = None →
   (MaxDistance_code b paramName r).2 = None → a ≤ b)
  ∧ ((Uint64.MinDistance_code a paramName r).2 = None →
     (Uint64.MaxDistance_code b paramName r).2 = None → a ≤ b).
Proof.
  split; intros Hmin Hmax; distance_stages;
    revert Hmin Hmax; case_cmp; cbn [returned]; first [done | lia].
Qed.

(** X13. For an int64 range with [Left <= Right] the int64 distance
    validators measure the interval by its integers: they return
    [WrongRange] exactly when the interval holds no integer, and otherwise
    compare the distance from its smallest to its largest integer with the
    configured one. *)
Theorem distance_counts_integers (val : Z) (paramName : string)
    (r : types.Int64Range) :
  int64_range r →
  Left r ≤ Right r →
  MinDistance_code val paramName r
    = (val, r,
       if last_elem r <? first_elem r
       then Some (NewError ErrorInvalidParam [paramName; "WrongRange"])
       else if last_elem r - first_elem r <? val
       then Some (NewError ErrorInvalidParam [paramName; "TooNear"])
       else None)
  ∧ MaxDistance_code val paramName r
    = (val, r,
       if last_elem r <? first_elem r
       then Some (NewError ErrorInvalidParam [paramName; "WrongRange"])
       else if last_elem r - first_elem r >? val
       then Some (NewError ErrorInvalidParam [paramName; "TooFar"])
       else None).
Proof.
  intros Hr Hle. pose proof (int64_width_bounds r Hr) as Hb.
  assert (Hfit : is_uint64 (Right r - Left r)) by (unfold_int64; lia).
  rewrite MinDistance_stages, MaxDistance_stages.
  unfold big_Sub, big_NewInt. rewrite !big_stages_outcome by done.
  unfold too_near, too_far, opens, first_elem, last_elem.
  split; destruct (LeftClosed r), (RightClosed r); norm_opens;
    case_cmp; first [done | lia | (do 2 f_equal; lia)].
Qed.

Lemma distance_counts_integers_witness :
  let r := mkRange 3 4 false false in
  int64_range r ∧ Left r ≤ Right r
  ∧ MinDistance_code 0 "x" r
    = (0, r, Some (NewError ErrorInvalidParam ["x"; "WrongRange"])).
Proof.
  assert (Hr : int64_range (mkRange 3 4 false false)) by (unfold_int64; cbn; lia).
  assert (Hle : Left (mkRange 3 4 false false) ≤ Right (mkRange 3 4 false false))
    by (cbn; lia).
  split_and!; [exact Hr | exact Hle |].
  exact (proj1 (distance_counts_integers 0 "x" _ Hr Hle)).
Defined.

(** X14. The same holds for the uint64 distance validators on a uint64
    range with [Left <= Right]: the uint64 subtraction does not wrap, the
    validators return [WrongRange] exactly when the interval holds no
    integer, and otherwise compare the distance from its smallest to its
    largest integer with the configured one. *)
Theorem Uint64_distance_counts_integers (val : Z) (paramName : string)
    (r : types.Uint64Range) :
  uint64_range r →
  Left r ≤ Right r →
  Uint64.MinDistance_code val paramName r
    = (val, r,
       if last_elem r <? first_elem r
       then Some (NewError ErrorInvalidParam [paramName; "WrongRange"])
       else if last_elem r - first_elem r <? val
       then Some (NewError ErrorInvalidParam [paramName; "TooNear"])
       else None)
  ∧ Uint64.MaxDistance_code val paramName r
    = (val, r,
       if last_elem r <? first_elem r
       then Some (NewError ErrorInvalidParam [paramName; "WrongRange"])
       else if last_elem r - first_elem r >? val
       then Some (NewError ErrorInvalidParam [paramName; "TooFar"])
       else None).
Proof.
  intros Hr Hle.
  assert (Hfit : is_uint64 (Right r - Left r)) by (unfold_int64; lia).
  rewrite Uint64_MinDistance_stages, Uint64_MaxDistance_stages.
  rewrite (wrap_uint64_id _ Hfit), !u64_stages_outcome by done.
  unfold too_near, too_far, opens, first_elem, last_elem.
  split; destruct (LeftClosed r), (RightClosed r); norm_opens;
    case_cmp; first [done | lia | (do 2 f_equal; lia)].
Qed.

Lemma Uint64_distance_counts_integers_witness :
  let r := mkRange 3 10 true false in
  uint64_range r ∧ Left r ≤ Right r
  ∧ Uint64.MinDistance_code 6 "x" r = (6, r, None).
Proof.
  assert (Hr : uint64_range (mkRange 3 10 true false)) by (unfold_int64; cbn; lia).
  assert (Hle : Left (mkRange 3 10 true false) ≤ Right (mkRange 3 10 true false))
    by (cbn; lia).
  split_and!; [exact Hr | exact Hle |].
  exact (proj1 (Uint64_distance_counts_integers 6 "x" _ Hr Hle)).
Defined.

(** ** Trimming *)

Lemma TrimLeft_idemp (s cutset : string) :
  TrimLeft (TrimLeft s cutset) cutset = TrimLeft s cutset.
Proof.
  induction s as [|c s IH]; [done|]. cbn [TrimLeft].
  destruct (in_cutset cutset c) eqn:Hc; [done|]. cbn [TrimLeft]. by rewrite Hc.
Qed.

Lemma TrimRight_idemp (s cutset : string) :
  TrimRight (TrimRight s cutset) cutset = TrimRight s cutset.
Proof.
  induction s as [|c s IH]; [done|]. cbn [TrimRight].
  destruct (TrimRight s cutset) as [|d t] eqn:Ht.
  - destruct (in_cutset cutset c) eqn:Hc; [done|]. cbn [TrimRight]. by rewrite Hc.
  - change (TrimRight (String c (String d t)) cutset)
      with (match TrimRight (String d t) cutset with
            | EmptyString =>
                if in_cutset cutset c then EmptyString else String c EmptyString
            | u => String c u
            end).
    by rewrite IH.
Qed.

(** Trimming on the left keeps a string that has nothing to trim on the
    right that way. *)
Lemma TrimRight_TrimLeft (t cutset : string) :
  TrimRight t cutset = t →
  TrimRight (TrimLeft t cutset) cutset = TrimLeft t cutset.
Proof.
  induction t as [|c t IH]; [done|]. intros Hfix. cbn [TrimLeft].
  destruct (in_cutset cutset c) eqn:Hc; [|done].
  apply IH. cbn [TrimRight] in Hfix. rewrite Hc in Hfix.
  destruct (TrimRight t cutset) as [|d u]; [done|]. by injection Hfix.
Qed.

Lemma Trim_idemp (s cutset : string) :
  Trim (Trim s cutset) cutset = Trim s cutset.
Proof.
  unfold Trim.
  rewrite (TrimRight_TrimLeft (TrimRight s cutset)) by apply TrimRight_idemp.
  apply TrimLeft_idemp.
Qed.

Lemma TrimLeft_head (s cutset : string) (c : Ascii.ascii) (rest : string) :
  TrimLeft s cutset = String c rest → in_cutset cutset c = false.
Proof.
  induction s as [|d s IH]; [done|]. cbn [TrimLeft].
  destruct (in_cutset cutset d) eqn:Hd; [done|]. by intros [= <- _].
Qed.

Section RunInput.

Variable ParseInt64Range : string → Z → Z → option types.Int64Range.

(** X15. [Run] does not see the characters space, tab, carriage return
    and line feed around a string: a string and its trimmed form give the
    same result and leave the filter the same, and a string that [Run]
    returns is a trimmed one: trimming it again changes nothing, and it
    does not start with one of these characters. *)
Theorem Run_ignores_surrounding_space (f : Int64RangeFilter) (paramName s : string) :
  Run ParseInt64Range f paramName (Str s)
    = Run ParseInt64Range f paramName (Str (Trim s run_cutset))
  ∧ (∀ f' t, Run ParseInt64Range f paramName (Str s) = (f', (Str t, None)) →
       Trim t run_cutset = t
       ∧ ∀ c rest, t = String c rest → in_cutset run_cutset c = false).
Proof.
  split.
  - unfold Run, coerce. by rewrite Trim_idemp.
  - intros f' t. unfold Run, coerce.
    destruct (allowed _ _).
    + intros [= _ <-]. split; [apply Trim_idemp|].
      intros c rest. apply TrimLeft_head.
    + destruct (ParseInt64Range _ _ _); [|done].
      by destruct (run_validators _ _ _) as [[? ?] [?|]].
Qed.


End RunInput.


(** ** The error module, continued *)

Lemma replicate_end_app {A : Type} (n : nat) (x : A) (l : list A) :
  replicate n x ++ x :: l = replicate (S n) x ++ l.
Proof. induction n as [|n IH]; [done|]. cbn [replicate app]. by rewrite IH. Qed.

(** X17. After [n] calls of [Error()] an error holds [n] copies of the
    label of its kind in front of the fields it was built with, its kind is
    unchanged, and the call number [k + 1] returned the label [k + 1] times
    followed by the fields, joined by colons. *)
Theorem Error_calls_closed_form (n : nat) (e : Error) :
  let label := appErrorCode (Type_ e) in
  Type_ (Error_calls n e).1 = Type_ e
  ∧ Fields (Error_calls n e).1 = replicate n label ++ Fields e
  ∧ (Error_calls n e).2
    = (λ k, Join (replicate (S k) label ++ Fields e) ":") <$> seq 0 n.
Proof.
  revert e. induction n as [|n IH]; intros e label; [done|].
  cbn [Error_calls]. unfold Error_Error.
  specialize (IH (mkError (Type_ e) (appErrorCode (Type_ e) :: Fields e))).
  cbn [Type_ Fields] in IH. destruct IH as (Htype & Hfields & Hstrings).
  destruct (Error_calls n _) as [e2 ss]. cbn [fst snd] in *.
  fold label in Hfields, Hstrings. split_and!.
  - done.
  - by rewrite Hfields, replicate_end_app.
  - cbn [seq fmap list_fmap]. f_equal. rewrite Hstrings, <- fmap_S_seq, <- list_fmap_compose.
    apply list_fmap_ext. intros _ k _. cbn [compose].
    by rewrite replicate_end_app.
Qed.

(** X18. The ten kinds of error have ten different, non-empty labels, and
    a kind beyond [ErrorInternalError] has the empty label, so that its
    string starts with a colon as soon as it has a field. *)
Theorem appErrorCode_labels (t1 t2 : ErrorType) :
  ((t1 ≤ ErrorInternalError)%N → appErrorCode t1 ≠ "")
  ∧ ((t1 ≤ ErrorInternalError)%N → (t2 ≤ ErrorInternalError)%N →
     appErrorCode t1 = appErrorCode t2 → t1 = t2)
  ∧ ((ErrorInternalError < t1)%N →
     appErrorCode t1 = ""
     ∧ ∀ field fields,
         (Error_Error (NewError t1 (field :: fields))).2
         = ":" +:+ Join (field :: fields) ":").
Proof.
  unfold ErrorInternalError.
  assert (Hcases : ∀ t, (t ≤ 9)%N →
            t ∈ [0; 1; 2; 3; 4; 5; 6; 7; 8; 9]%N).
  { intros t Ht. rewrite !elem_of_cons. lia. }
  assert (Hbeyond : (9 < t1)%N → appErrorCode t1 = "").
  { intros Ht. unfold appErrorCode, appErrorCodes.
    rewrite (not_elem_of_list_to_map_1 _ t1); [done|].
    cbn. rewrite !elem_of_cons, elem_of_nil.
    unfold ErrorObjectNotExist, ErrorObjectDuplicated, ErrorNoObjectUpdated,
      ErrorNoObjectDeleted, ErrorMissingParam, ErrorInvalidParam,
      ErrorQuotaExceed, ErrorPermissionDenied, ErrorOperationFailed,
      ErrorInternalError. lia. }
  split_and!.
  - intros H1%Hcases. rewrite !elem_of_cons, elem_of_nil in H1.
    destruct_or!; subst; try done.
  - intros H1%Hcases H2%Hcases. rewrite !elem_of_cons, elem_of_nil in H1, H2.
    destruct_or!; subst; try done; vm_compute; discriminate.
  - intros Ht. split; [by apply Hbeyond|].
    intros field fields. unfold Error_Error, NewError. cbn [Type_ Fields snd].
    by rewrite (Hbeyond Ht).
Qed.

Lemma appErrorCode_labels_witness :
  (ErrorInvalidParam ≤ ErrorInternalError)%N
  ∧ appErrorCode ErrorInvalidParam ≠ "".
Proof.
  assert (H : (ErrorInvalidParam ≤ ErrorInternalError)%N) by (vm_compute; discriminate).
  split; [exact H|].
  exact (proj1 (appErrorCode_labels ErrorInvalidParam ErrorMissingParam) H).
Defined.

(** ** Presence of a parameter *)

Section Presence.

Variable ParseInt64Range : string → Z → Z → option types.Int64Range.

(** X19. [RequiredFilter] fails exactly on a nil value, with the
    missing-param error of the parameter, whose string is the label and the
    name; otherwise it returns the value as it is. On what [Default(d)]
    returns it fails only when both the value and [d] are nil; on what
    [EmptyToNil] returns it fails exactly for nil and for the empty string.
    The range filter, in contrast, returns nil for nil. *)
Theorem presence_filters (f : Int64RangeFilter) (paramName : string)
    (paramValue defaultVal : interface) :
  let missing := NewError ErrorMissingParam [paramName] in
  (RequiredFilter_Run paramName Nil = (Nil, Some missing))
  ∧ (paramValue ≠ Nil → RequiredFilter_Run paramName paramValue = (paramValue, None))
  ∧ (Error_Error missing).2 = "MissingParam:" +:+ paramName
  ∧ ((RequiredFilter_Run paramName
        (DefaultFilter_Run defaultVal paramName paramValue).1).2 = Some missing
     ↔ paramValue = Nil ∧ defaultVal = Nil)
  ∧ ((RequiredFilter_Run paramName
        (EmptyToNilFilter_Run paramName paramValue).1).2 = Some missing
     ↔ paramValue = Nil ∨ paramValue = Str "")
  ∧ (Run ParseInt64Range f paramName
       (EmptyToNilFilter_Run paramName (Str "")).1).2 = (Nil, None).
Proof.
  intros missing. split_and!.
  - done.
  - by destruct paramValue.
  - done.
  - destruct paramValue, defaultVal; cbn; split; first [done | by intros [??] | by intros [=]].
  - destruct paramValue as [|[|c s]| | |]; cbn;
      split; first [done | by left | by right | by intros [?|?] | by intros [=]].
  - done.
Qed.

End Presence.

Lemma MinDistance_MaxDistance_compatible_witness :
  let r := mkRange 0 10 true true in
  (MinDistance_code 3 "x" r).2 = None
  ∧ (MaxDistance_code 20 "x" r).2 = None
  ∧ 3 ≤ 20.
Proof.
  split_and!; [reflexivity | reflexivity |].
  exact (proj1 (MinDistance_MaxDistance_compatible 3 20 "x" (mkRange 0 10 true true))
           eq_refl eq_refl).
Defined.

Lemma Run_ignores_surrounding_space_witness :
  let f := Allow ["any"] Int64Range in
  Run (λ _ _ _, None) f "x" (Str " any ") = (f, (Str "any", None))
  ∧ Trim "any" run_cutset = "any".
Proof.
  split; [reflexivity|].
  exact (proj1 (proj2 (Run_ignores_surrounding_space (λ _ _ _, None)
                         (Allow ["any"] Int64Range) "x" " any ")
                  (Allow ["any"] Int64Range) "any" eq_refl)).
Defined.

Lemma presence_filters_witness :
  Str "a" ≠ Nil
  ∧ RequiredFilter_Run "x" (Str "a") = (Str "a", None).
Proof.
  assert (H : Str "a" ≠ Nil) by discriminate.
  split; [exact H|].
  exact (proj1 (proj2 (presence_filters (λ _ _ _, None) Int64Range "x"
                         (Str "a") Nil)) H).
Defined.

(** ** IntFilter *)

Lemma in_set_elem_of (set : list Z) (paramValue : Z) :
  IntFilter.in_set set paramValue = true ↔ paramValue ∈ set.
Proof.
  induction set as [|v rest IH]; cbn [IntFilter.in_set].
  - split; [done | by intros ?%elem_of_nil].
  - rewrite elem_of_cons. destruct (Z.eqb_spec v paramValue) as [->|Hne].
    + by split; [left|].
    + rewrite IH. split; [by right | intros [?|?]; congruence].
Qed.

(** X20. The validators of [IntFilter] decide what their names say and
    keep what they captured: [Min] passes exactly the values not below the
    bound, [Max] those not above it, [LargerThan] and [SmallerThan] those
    strictly beyond it, [Equal] the bound alone, [Between] the values from
    [min] to [max] (none when [min] exceeds [max]), and [In] the members of
    the set (none for the empty set). *)
Theorem IntFilter_validators_decide (val min max : Z) (set : list Z)
    (paramName : string) (paramValue : Z) :
  (IntFilter.Min_code val paramName paramValue = (val, None) ↔ val ≤ paramValue)
  ∧ (IntFilter.Max_code val paramName paramValue = (val, None) ↔ paramValue ≤ val)
  ∧ (IntFilter.LargerThan_code val paramName paramValue = (val, None)
     ↔ val < paramValue)
  ∧ (IntFilter.SmallerThan_code val paramName paramValue = (val, None)
     ↔ paramValue < val)
  ∧ (IntFilter.Equal_code val paramName paramValue = (val, None)
     ↔ paramValue = val)
  ∧ (IntFilter.Between_code (min, max) paramName paramValue = ((min, max), None)
     ↔ min ≤ paramValue ≤ max)
  ∧ (IntFilter.In_code set paramName paramValue = (set, None) ↔ paramValue ∈ set)
  ∧ (max < min →
     (IntFilter.Between_code (min, max) paramName paramValue).2 ≠ None)
  ∧ (IntFilter.In_code [] paramName paramValue).2 ≠ None.
Proof.
  unfold IntFilter.Min_code, IntFilter.Max_code, IntFilter.LargerThan_code,
    IntFilter.SmallerThan_code, IntFilter.Equal_code, IntFilter.Between_code,
    IntFilter.In_code.
  split_and!; try (case_cmp_all; split; intros; first [done | lia]).
  - rewrite <- in_set_elem_of. by destruct (IntFilter.in_set set paramValue).
  - intros Hlt. case_cmp_all; cbn [snd]; first [done | lia].
  - done.
Qed.

Lemma IntFilter_validators_decide_witness :
  7 < 9 ∧ (IntFilter.Between_code (9, 7) "x" 8).2 ≠ None.
Proof.
  assert (H : 7 < 9) by lia.
  split; [exact H|].
  destruct (IntFilter_validators_decide 0 9 7 [] "x" 8)
    as (_ & _ & _ & _ & _ & _ & _ & Hempty & _).
  exact (Hempty H).
Defined.



Section IntFilterRun.

Variable ParseInt : string → Z → option Z.


End IntFilterRun.


(** ** Builder calls *)

Lemma build_snoc (f : Int64RangeFilter) (cs : list builder_call) (c : builder_call) :
  build f (cs ++ [c]) = build_step (build f cs) c.
Proof. unfold build. by rewrite fold_left_app. Qed.

(** X22. After any chain of builder calls on a filter, the allow-list is
    the old one followed by the strings of the [Allow] calls in call order,
    the validators are the old ones followed by the registered ones in call
    order, and each default is the value of the last call that set it, or
    the old default when no call did. *)
Theorem build_accumulates (f : Int64RangeFilter) (cs : list builder_call) :
  allowVals (build f cs) = allowVals f ++ cs ≫= allowed_by
  ∧ validators (build f cs) = validators f ++ omap registered_by cs
  ∧ defaultLeftVal (build f cs)
    = default (defaultLeftVal f) (last (omap left_default_of cs))
  ∧ defaultRightVal (build f cs)
    = default (defaultRightVal f) (last (omap right_default_of cs)).
Proof.
  induction cs as [|c cs IH] using rev_ind.
  - cbn. by rewrite !app_nil_r.
  - rewrite build_snoc. destruct IH as (Ha & Hv & Hl & Hr).
    rewrite bind_app, !omap_app.
    destruct c as [vals|val|val|v]; cbn [build_step Allow LeftDefault RightDefault
      AddValidator allowVals validators defaultLeftVal defaultRightVal
      allowed_by registered_by left_default_of right_default_of omap
      list_omap mbind list_bind];
      rewrite ?app_nil_r, ?last_snoc, ?Ha, ?Hv, ?Hl, ?Hr, ?app_assoc; done.
Qed.

(** ** Between and the integers of the range *)

(** X23. On a closure whose captured bounds are [min] and [max], with
    [max] above [MinInt64], [LeftBetween] passes exactly when the smallest
    integer of the range lies from [min] to [max]; with [min] below
    [MaxInt64], [RightBetween] passes exactly when the largest integer of
    the range lies from [min] to [max]. *)
Theorem Between_elem (min max : Z) (paramName : string) (r : types.Int64Range) :
  is_int64 min →
  is_int64 max →
  int64_range r →
  (MinInt64 < max →
   (LeftBetween_code (min, max) paramName r).2 = None
   ↔ min ≤ first_elem r ≤ max)
  ∧ (min < MaxInt64 →
     (RightBetween_code (min, max) paramName r).2 = None
     ↔ min ≤ last_elem r ≤ max).
Proof.
  intros Hmin Hmax [Hl Hr].
  unfold LeftBetween_code, RightBetween_code, first_elem, last_elem.
  rewrite !(left_adjust_saturates _ Hmin), !(left_adjust_saturates _ Hmax),
    !(right_adjust_saturates _ Hmin), !(right_adjust_saturates _ Hmax).
  split; intros Hbound;
    destruct (LeftClosed r), (RightClosed r); cbn [negb];
    case_cmp_all; cbn [snd];
    split; intros; first [done | unfold_int64; lia].
Qed.

Lemma Between_elem_witness :
  let r := mkRange 4 10 false true in
  is_int64 5 ∧ is_int64 8 ∧ int64_range r ∧ MinInt64 < 8
  ∧ ((LeftBetween_code (5, 8) "x" r).2 = None ↔ 5 ≤ first_elem r ≤ 8).
Proof.
  assert (Hmin : is_int64 5) by (unfold_int64; lia).
  assert (Hmax : is_int64 8) by (unfold_int64; lia).
  assert (Hr : int64_range (mkRange 4 10 false true)) by (unfold_int64; cbn; lia).
  assert (Hgt : MinInt64 < 8) by (unfold_int64; lia).
  split_and!; [exact Hmin | exact Hmax | exact Hr | exact Hgt |].
  exact (proj1 (Between_elem 5 8 "x" _ Hmin Hmax Hr) Hgt).
Defined.

(** ** The uint64 boundary validators *)

(** X24. In the uint64 domain the threshold of [LeftMin] stops at 0 and
    that of [RightMax] at the largest uint64, so the unsigned arithmetic
    never wraps: the captured threshold stays a uint64, [LeftMin] passes
    exactly when the smallest integer of the range is at least [val], and
    [RightMax] exactly when the largest is at most [val]. *)
Theorem Uint64_bounds_saturate (val : Z) (paramName : string)
    (r : types.Uint64Range) :
  is_uint64 val →
  uint64_range r →
  is_uint64 (Uint64_LeftMin_code val paramName r).1.1
  ∧ is_uint64 (Uint64_RightMax_code val paramName r).1.1
  ∧ ((Uint64_LeftMin_code val paramName r).2 = None ↔ val ≤ first_elem r)
  ∧ ((Uint64_RightMax_code val paramName r).2 = None ↔ last_elem r ≤ val).
Proof.
  intros Hval [Hl Hr].
  assert (Hdec : (if val >? 0 then wrap_uint64 (val - 1) else val) = Z.max 0 (val - 1)).
  { destruct (Z.gtb_spec val 0).
    - rewrite wrap_uint64_id by (unfold_int64; lia). lia.
    - unfold_int64; lia. }
  assert (Hinc : (if val <? MaxUint64 then wrap_uint64 (val + 1) else val)
                 = Z.min MaxUint64 (val + 1)).
  { destruct (Z.ltb_spec val MaxUint64).
    - rewrite wrap_uint64_id by (unfold_int64; lia). lia.
    - unfold_int64; lia. }
  unfold Uint64_LeftMin_code, Uint64_RightMax_code, first_elem, last_elem.
  rewrite Hdec, Hinc.
  destruct (LeftClosed r), (RightClosed r); cbn [negb];
    case_cmp_all; cbn [fst snd]; split_and!;
    first [ unfold_int64; lia
          | split; intros; first [done | unfold_int64; lia] ].
Qed.

Lemma Uint64_bounds_saturate_witness :
  let r := mkRange 0 10 false true in
  is_uint64 0 ∧ uint64_range r
  ∧ (Uint64_LeftMin_code 0 "x" r).1.1 = 0
  ∧ is_uint64 (Uint64_LeftMin_code 0 "x" r).1.1.
Proof.
  assert (Hval : is_uint64 0) by (unfold_int64; lia).
  assert (Hr : uint64_range (mkRange 0 10 false true)) by (unfold_int64; cbn; lia).
  split_and!; [exact Hval | exact Hr | reflexivity |].
  exact (proj1 (Uint64_bounds_saturate 0 "x" _ Hval Hr)).
Defined.
